(** * Plate-appearance outcome pipeline (baseball_stats)

    A shallow embedding of [pa_data.py], [pa_model.py] and [sim_rates.py].

    Conventions of the embedding.
    - A Python [str] is a [string]; its characters are read as the code points
      U+0000..U+00FF, the range on which [str.lower] and [str.strip] are
      modelled below; the upper-casing of pandas is modelled on ASCII and
      left open beyond it.
    - A value for which [pd.isna] holds ([None], [NaN]) is [None] or [CNa].
    - A Python [int] is unbounded; a value of an int64 column is kept in the
      int64 range ([wrap64]); a finite float is the rational it denotes, and
      the quotients of the rate table are exact rationals.
    - A raised exception is the [Raise] case of [result].
    - A [dict] is an association list in insertion order.
    - What the libraries do is a parameter where the code only calls them:
      the fetch ([statcast]), the split and fit of the classifier,
      [predict_proba], and the points of pandas collected in [Pandas] (the
      reading of a string as a number, the int64 cast of a value numpy does
      not hold exactly, upper-casing beyond ASCII, the dtype of a column
      without values). Switching on the fetch cache
      ([pybaseball.cache.enable()]) changes nothing modelled here, and the
      imports inside the functions succeed unless the imported name is
      missing from the module. *)

From Stdlib Require Import List Bool Ascii String NArith ZArith QArith Lia.
Import ListNotations.

Local Open Scope string_scope.
Local Open Scope list_scope.

(** ** Python strings *)

Module PyStr.

Definition code (c : ascii) : N := N_of_ascii c.

(** [str.lower] on one character: A..Z and the Latin-1 capitals
    U+00C0..U+00DE (U+00D7, the multiplication sign, is no letter). *)
Definition lower_char (c : ascii) : ascii :=
  let n := code c in
  if ((65 <=? n) && (n <=? 90))%N then ascii_of_N (n + 32)
  else if ((192 <=? n) && (n <=? 222) && negb (n =? 215))%N
       then ascii_of_N (n + 32)
       else c.

Fixpoint lower (s : string) : string :=
  match s with
  | EmptyString => EmptyString
  | String c t => String (lower_char c) (lower t)
  end.

(** The characters [str.strip()] removes: TAB, LF, VT, FF, CR, the
    separators U+001C..U+001F, SPACE, NEL (U+0085) and NBSP (U+00A0). *)
Definition isspace (c : ascii) : bool :=
  let n := code c in
  (((9 <=? n) && (n <=? 13)) || ((28 <=? n) && (n <=? 32))
   || (n =? 133) || (n =? 160))%N.

Fixpoint lstrip (s : string) : string :=
  match s with
  | EmptyString => EmptyString
  | String c t => if isspace c then lstrip t else s
  end.

Fixpoint rstrip (s : string) : string :=
  match s with
  | EmptyString => EmptyString
  | String c t =>
      match rstrip t with
      | EmptyString => if isspace c then EmptyString else String c EmptyString
      | r => String c r
      end
  end.

Definition strip (s : string) : string := rstrip (lstrip s).

(** The string starts with no whitespace character. *)
Definition no_leading_space (s : string) : Prop :=
  match s with
  | EmptyString => True
  | String c _ => isspace c = false
  end.

(** [sub in s] *)
Fixpoint contains (sub s : string) : bool :=
  String.prefix sub s
  || match s with
     | EmptyString => false
     | String _ t => contains sub t
     end.

(** [series.str.upper()], as the list of code points of the result: a..z
    move down by 32 and the rest of ASCII stays; what a character beyond
    ASCII becomes is left to [special] (Python's [str.upper] and the string
    kernels of pandas differ there). *)
Definition upper_char (special : ascii -> list N) (c : ascii) : list N :=
  let n := code c in
  if ((97 <=? n) && (n <=? 122))%N then [(n - 32)%N]
  else if (n <? 128)%N then [n]
  else special c.

(** [s.isascii()] *)
Fixpoint isascii (s : string) : bool :=
  match s with
  | EmptyString => true
  | String c t => (code c <? 128)%N && isascii t
  end.

Fixpoint upper (special : ascii -> list N) (s : string) : list N :=
  match s with
  | EmptyString => []
  | String c t => upper_char special c ++ upper special t
  end.

End PyStr.

(** ** pa_data.py: the event classifier *)

Definition OUTCOME_ORDER : list string :=
  ["Walk"; "HBP"; "Single"; "Double"; "Triple"; "HR"; "Strikeout"; "Out"].

Definition _event_to_outcome (event : option string) : string :=
  match event with
  | None => "Out"
  | Some ev =>
      let e := PyStr.strip (PyStr.lower ev) in
      if e =? "walk" then "Walk"
      else if e =? "hit_by_pitch" then "HBP"
      else if e =? "single" then "Single"
      else if PyStr.contains "double_play" e || (e =? "double_play") then "Out"
      else if e =? "double" then "Double"
      else if PyStr.contains "triple_play" e || (e =? "triple_play") then "Out"
      else if e =? "triple" then "Triple"
      else if e =? "home_run" then "HR"
      else if PyStr.contains "strikeout" e then "Strikeout"
      else "Out"
  end.

(** ** Exceptions *)

Inductive exn : Type :=
| KeyError (key : string)
| AttributeError (msg : string)
| ImportError (name : string)
| FileNotFoundError (path : string)
| ValueError (msg : string)
| IntCastingNaNError.

Inductive result (A : Type) : Type :=
| Ok (a : A)
| Raise (e : exn).

Arguments Ok {A} a.
Arguments Raise {A} e.

Definition bind {A B : Type} (m : result A) (k : A -> result B) : result B :=
  match m with
  | Ok a => k a
  | Raise e => Raise e
  end.

Notation "x <- m ;; k" := (bind m (fun x => k))
  (at level 61, m at next level, right associativity).
Notation "' p <- m ;; k" := (bind m (fun p => k))
  (at level 61, p pattern, m at next level, right associativity).

(** Apply a fallible function to each element, left to right; the first
    exception ends the traversal. *)
Fixpoint mapM {A B : Type} (f : A -> result B) (l : list A) : result (list B) :=
  match l with
  | [] => Ok []
  | a :: t => b <- f a ;; bs <- mapM f t ;; Ok (b :: bs)
  end.

(** A loop over [l] that threads an accumulator and stops at the first
    exception. *)
Fixpoint foldM {A B : Type} (f : B -> A -> result B) (l : list A) (acc : B) : result B :=
  match l with
  | [] => Ok acc
  | a :: t => acc' <- f acc a ;; foldM f t acc'
  end.

(** ** Dictionaries: association lists in insertion order *)

Section Dict.
Context {V : Type}.

Fixpoint dict_get (k : string) (d : list (string * V)) : option V :=
  match d with
  | [] => None
  | (k', v) :: t => if k' =? k then Some v else dict_get k t
  end.

(** [d[k] = v]: an existing key keeps its position. *)
Fixpoint dict_set (k : string) (v : V) (d : list (string * V)) : list (string * V) :=
  match d with
  | [] => [(k, v)]
  | (k', v') :: t => if k' =? k then (k, v) :: t else (k', v') :: dict_set k v t
  end.

(** [dict(pairs)] *)
Definition dict_of (pairs : list (string * V)) : list (string * V) :=
  fold_left (fun d kv => dict_set (fst kv) (snd kv) d) pairs [].
End Dict.

Definition mem (k : string) (l : list string) : bool := existsb (String.eqb k) l.

(** ** Data frames *)

(** One cell of a frame: missing ([None]/[NaN]), an integer, a finite float
    (as the rational it denotes), an infinite float, or a string. *)
Inductive cell : Type :=
| CNa
| CInt (z : Z)
| CFloat (q : Q)
| CInf (negative : bool)
| CStr (s : string).

Definition Row : Type := list (string * cell).
Definition Series : Type := list cell.

(** [pd.DataFrame(rows, columns=columns)]: the frame has the listed columns;
    a row holds [NaN] where it names no value for a column. *)
Record DataFrame : Type := mkDataFrame {
  columns : list string;
  rows : list Row
}.

Definition row_get (c : string) (r : Row) : cell :=
  match dict_get c r with
  | Some v => v
  | None => CNa
  end.

Definition has_col (c : string) (df : DataFrame) : bool := mem c (columns df).

(** [df[c]] *)
Definition get_col (c : string) (df : DataFrame) : result Series :=
  if has_col c df then Ok (map (row_get c) (rows df)) else Raise (KeyError c).

Fixpoint map2 {A B C : Type} (f : A -> B -> C) (l : list A) (l' : list B) : list C :=
  match l, l' with
  | a :: t, b :: t' => f a b :: map2 f t t'
  | _, _ => []
  end.

(** [df[c] = values], for values computed from the columns of [df] *)
Definition set_col (c : string) (values : Series) (df : DataFrame) : DataFrame :=
  {| columns := if has_col c df then columns df else columns df ++ [c];
     rows := map2 (fun r v => dict_set c v r) (rows df) values |}.

(** [l[mask]] *)
Fixpoint mask_filter {A : Type} (mask : list bool) (l : list A) : list A :=
  match mask, l with
  | b :: m, a :: t => if b then a :: mask_filter m t else mask_filter m t
  | _, _ => []
  end.

(** [df[mask]] *)
Definition select_rows (mask : list bool) (df : DataFrame) : DataFrame :=
  {| columns := columns df; rows := mask_filter mask (rows df) |}.

(** [df[cols]] for column names known to be present *)
Definition project (cols : list string) (df : DataFrame) : DataFrame :=
  {| columns := cols; rows := rows df |}.

(** [len(df)] *)
Definition len (df : DataFrame) : nat := List.length (rows df).

(** [df.empty]: some axis has length zero. *)
Definition df_empty (df : DataFrame) : bool :=
  match rows df, columns df with
  | [], _ | _, [] => true
  | _, _ => false
  end.

(** [pd.DataFrame()] *)
Definition empty_frame : DataFrame := {| columns := []; rows := [] |}.

Definition notna (v : cell) : bool :=
  match v with
  | CNa => false
  | _ => true
  end.

(** [series == s] for a string [s], cell by cell *)
Definition cell_eq_str (s : string) (v : cell) : bool :=
  match v with
  | CStr t => t =? s
  | _ => false
  end.

(** [series.isin(values)] for a list of strings *)
Definition isin (values : list string) (v : cell) : bool :=
  match v with
  | CStr t => mem t values
  | _ => false
  end.

(** ** Numeric coercion *)

(** The value [pd.to_numeric] reads from a cell. *)
Inductive num : Type :=
| NInt (z : Z)
| NFloat (q : Q)
| NInf (negative : bool).

Definition cell_of_num (n : num) : cell :=
  match n with
  | NInt z => CInt z
  | NFloat q => CFloat q
  | NInf b => CInf b
  end.

(** A value brought into the int64 range, as int64 arithmetic does. *)
Definition wrap64 (z : Z) : Z := ((z + 2 ^ 63) mod 2 ^ 64 - 2 ^ 63)%Z.

(** The number with its fraction cut off. *)
Definition truncate (n : num) : Z :=
  match n with
  | NInt z => z
  | NFloat q => Z.quot (Qnum q) (Z.pos (Qden q))
  | NInf _ => 0%Z
  end.

(** The values numpy holds exactly whatever the dtype of the column is, and
    casts to int64 without loss: an integer of magnitude up to 2^53 (the
    column is float64 as soon as it has a [NaN] or a float), a float whose
    integer part is of magnitude below 2^63. *)
Definition held_exactly (n : num) : bool :=
  match n with
  | NInt z => (Z.abs z <=? 2 ^ 53)%Z
  | NFloat _ => (Z.abs (truncate n) <? 2 ^ 63)%Z
  | NInf _ => false
  end.

(** [.astype(int)] on one value of a column: an infinite value is refused;
    a value held exactly is truncated towards zero; for any other value the
    int64 that comes out depends on the dtype of the column and on the
    platform, and is [cast] of the value (2.0**70 and 2**63 come out as
    -2^63 on x86-64). *)
Definition astype_int (cast : num -> Z) (n : num) : result Z :=
  match n with
  | NInf _ => Raise IntCastingNaNError
  | _ => Ok (if held_exactly n then truncate n else wrap64 (cast n))
  end.

(** [.fillna(0)] on one value ([None] is [NaN]) *)
Definition fillna0 (v : option num) : num :=
  match v with
  | Some n => n
  | None => NInt 0
  end.

(** [count_balls * 4 + count_strikes] on Python integers (sim_rates.py); in
    pa_model.py the same formula is computed on an int64 column and wraps
    ([wrap64] in [build_features]). *)
Definition count_id (balls strikes : Z) : Z := (balls * 4 + strikes)%Z.

(** The points where the code relies on what pandas and numpy do. *)
Record Pandas : Type := {
  (** what [pd.to_numeric] reads from a string; [None] when the string is
      no number ([errors="coerce"] turns it into [NaN]) *)
  parse_numeric : string -> option num;
  (** what the cast to int64 makes of a value of the given column that
      numpy does not hold exactly *)
  int64_cast : Series -> num -> Z;
  (** [.str.upper()] on a character beyond ASCII *)
  upper_special : ascii -> list N;
  (** whether a column in which every cell is missing (or that has no cell)
      has the object dtype, and not a numeric one *)
  object_dtype : Series -> bool
}.

Definition is_str (v : cell) : bool :=
  match v with
  | CStr _ => true
  | _ => false
  end.

Definition is_na (v : cell) : bool :=
  match v with
  | CNa => true
  | _ => false
  end.

Section Pipeline.

(** [pybaseball.statcast]: the frame fetched for a date range, or [None]. *)
Variable statcast : string -> string -> option DataFrame.

(** pandas and numpy, where the code leaves the result to them. *)
Variable pd : Pandas.

(** The rest of [train_model] (pa_model.py, lines 58-80): label encoding,
    the stratified split, the fit and the holdout accuracy. *)
Variable trained : Type.
Variable fit_and_score : DataFrame -> Series -> Q -> Z -> result trained.

(** [pd.to_numeric(series, errors="coerce")] on one cell *)
Definition to_numeric (v : cell) : option num :=
  match v with
  | CNa => None
  | CInt z => Some (NInt z)
  | CFloat q => Some (NFloat q)
  | CInf b => Some (NInf b)
  | CStr s => parse_numeric pd s
  end.

(** [pd.to_numeric(series, errors="coerce").fillna(0).astype(int)], on one
    cell (with the cast the column gets) and on a series *)
Definition coerce_int_cell (cast : num -> Z) (v : cell) : result Z :=
  astype_int cast (fillna0 (to_numeric v)).

Definition coerce_int (s : Series) : result (list Z) :=
  mapM (coerce_int_cell (int64_cast pd s)) s.

(** [pd.to_numeric(series, errors="coerce").fillna(0)] *)
Definition coerce_num (s : Series) : Series :=
  map (fun v => cell_of_num (fillna0 (to_numeric v))) s.

(** *** pa_data.py *)

(** [_event_to_outcome] on a cell of the "events" column: a number is not
    [NaN] and has no [lower]. *)
Definition event_cell_to_outcome (v : cell) : result cell :=
  match v with
  | CNa => Ok (CStr (_event_to_outcome None))
  | CStr s => Ok (CStr (_event_to_outcome (Some s)))
  | CInt _ | CFloat _ | CInf _ =>
      Raise (AttributeError "object has no attribute 'lower'")
  end.

Definition fetch_statcast_pas (start_dt end_dt : string) : result DataFrame :=
  match statcast start_dt end_dt with
  | None => Ok empty_frame
  | Some raw =>
      if df_empty raw then Ok empty_frame
      else
        events <- get_col "events" raw ;;
        Ok (select_rows (map notna events) raw)
  end.

Definition map_events_to_outcomes (pas : DataFrame) : result DataFrame :=
  events <- get_col "events" pas ;;
  outcome <- mapM event_cell_to_outcome events ;;
  Ok (set_col "outcome" outcome pas).

(** One turn of the loop over ["balls"; "strikes"] in [load_pa_dataset] *)
Definition coerce_count_col (col : string) (pas : DataFrame) : result DataFrame :=
  if has_col col pas then
    values <- get_col col pas ;;
    ints <- coerce_int values ;;
    Ok (set_col col (map CInt ints) pas)
  else Ok pas.

Definition load_pa_dataset (start_dt end_dt : string) : result DataFrame :=
  pas <- fetch_statcast_pas start_dt end_dt ;;
  if df_empty pas then Ok pas
  else
    pas <- map_events_to_outcomes pas ;;
    foldM (fun pas col => coerce_count_col col pas) ["balls"; "strikes"] pas.

(** *** pa_model.py *)

(** Whether pandas grants [series.str]: it does for a column that holds a
    string, and for a column of missing values only when its dtype is
    object; a column of numbers, or of missing values with a numeric dtype,
    is refused. *)
Definition str_accepted (s : Series) : bool :=
  existsb is_str s || (forallb is_na s && object_dtype pd s).

(** [series.str]; the message of the error starts as given here. *)
Definition str_accessor (s : Series) : result Series :=
  if str_accepted s then Ok s
  else Raise (AttributeError "Can only use .str accessor with string values").

(** [.upper()] of the accessor on one cell: a cell that is no string gives
    [NaN]. *)
Definition str_upper (v : cell) : option (list N) :=
  match v with
  | CStr s => Some (PyStr.upper (upper_special pd) s)
  | _ => None
  end.

(** [(a == b).astype(int)] on one pair of cells: [NaN] equals nothing. *)
Definition same_upper (a b : cell) : Z :=
  match str_upper a, str_upper b with
  | Some x, Some y => if list_eq_dec N.eq_dec x y then 1%Z else 0%Z
  | _, _ => 0%Z
  end.

(** One turn of the loop over ["inning"; "outs_when_up"] in
    [build_features]: the frame and the feature columns so far. *)
Definition add_optional_feature (c : string) (st : DataFrame * list string)
  : result (DataFrame * list string) :=
  let '(df, feature_cols) := st in
  if has_col c df then
    values <- get_col c df ;;
    Ok (set_col c (coerce_num values) df, feature_cols ++ [c])
  else Ok (df, feature_cols).

Definition build_features (pas : DataFrame) : result (DataFrame * Series) :=
  let df := pas in
  balls <- get_col "balls" df ;;
  balls <- coerce_int balls ;;
  let df := set_col "balls" (map CInt balls) df in
  strikes <- get_col "strikes" df ;;
  strikes <- coerce_int strikes ;;
  let df := set_col "strikes" (map CInt strikes) df in
  let df := set_col "count_id"
              (map CInt (map2 (fun b s => wrap64 (count_id b s)) balls strikes)) df in
  stand <- get_col "stand" df ;;
  stand <- str_accessor stand ;;
  p_throws <- get_col "p_throws" df ;;
  p_throws <- str_accessor p_throws ;;
  let df := set_col "platoon_same" (map CInt (map2 same_upper stand p_throws)) df in
  let feature_cols := ["count_id"; "platoon_same"] in
  '(df, feature_cols) <-
    foldM (fun st c => add_optional_feature c st) ["inning"; "outs_when_up"]
          (df, feature_cols) ;;
  let X := project (filter (fun c => has_col c df) feature_cols) df in
  y <- get_col "outcome" df ;;
  Ok (X, y).

Definition no_valid_rows : string :=
  "No valid rows after building features. Check PA data and outcome mapping.".

Definition train_model (pas : DataFrame) (test_size : Q) (random_state : Z)
  : result trained :=
  '(X, y) <- build_features pas ;;
  let valid := map (isin OUTCOME_ORDER) y in
  let X := select_rows valid X in
  let y := mask_filter valid y in
  if df_empty X || (match y with [] => true | _ => false end)
  then Raise (ValueError no_valid_rows)
  else fit_and_score X y test_size random_state.

(** [(pas["outcome"] == outcome).sum()] *)
Definition count_outcome (outcome : string) (labels : Series) : nat :=
  List.length (filter (cell_eq_str outcome) labels).

(** [count / n if n else 0.0] for [count = (pas["outcome"] == outcome).sum()];
    the float quotient is modelled by the exact rational. The column is
    read only when [n] is not zero. *)
Definition rate_of (outcome : string) (pas : DataFrame) (n : nat) : result Q :=
  match n with
  | O => Ok 0
  | S _ =>
      labels <- get_col "outcome" pas ;;
      Ok (Z.of_nat (count_outcome outcome labels) # Pos.of_nat n)
  end.

Definition league_rates_from_data (pas : DataFrame) (platoon_filter : option string)
  : result (list (string * Q)) :=
  pas <- (if negb (has_col "outcome" pas) then map_events_to_outcomes pas else Ok pas) ;;
  pas <- match platoon_filter with
         | Some wanted =>
             pas <- (if negb (has_col "platoon_matchup" pas)
                     then Raise (ImportError "cannot import name 'add_platoon_info' from 'pa_data'")
                     else Ok pas) ;;
             matchup <- get_col "platoon_matchup" pas ;;
             Ok (select_rows (map (cell_eq_str wanted) matchup) pas)
         | None => Ok pas
         end ;;
  let n := len pas in
  foldM (fun rates outcome =>
           r <- rate_of outcome pas n ;;
           Ok (dict_set outcome r rates))
        OUTCOME_ORDER [].

End Pipeline.

(** ** sim_rates.py *)

Record LabelEncoder : Type := { classes_ : list string }.

(** The "meta" entry of the pickled bundle; [meta_feature_names] is
    [meta.get("feature_names")]. *)
Record Meta : Type := { meta_feature_names : option (list string) }.

(** [a or rest] where [a] is [None] or a numpy array of names (a first name
    and the others), as [feature_names_in_] is: an array of more than one
    element has no truth value, and an array of one name is as true as the
    name. *)
Definition array_or (a : option (string * list string)) (rest : option (list string))
  : result (option (list string)) :=
  match a with
  | None => Ok rest
  | Some (x, []) => if x =? "" then Ok rest else Ok (Some [x])
  | Some (_, _ :: _) =>
      Raise (ValueError
               "The truth value of an array with more than one element is ambiguous. Use a.any() or a.all()")
  end.

(** [names or a or rest] where [names] is [None] or a list: [None] and the
    empty list are falsy, and [rest] is the value when nothing before it is
    true. *)
Definition py_or (names : option (list string)) (a : option (string * list string))
    (rest : option (list string)) : result (option (list string)) :=
  match names with
  | Some (_ :: _) => Ok names
  | _ => array_or a rest
  end.

Section Sim.

(** The fitted classifier, as far as the query path uses it:
    [feature_names_in_ clf] is [getattr(clf, "feature_names_in_", None)],
    which scikit-learn sets to the array of the column names of a fit on
    named columns (there is at least one), and [feature_names clf] is
    [getattr(clf, "feature_names", None)]. *)
Variable classifier : Type.
Variable feature_names_in_ : classifier -> option (string * list string).
Variable feature_names : classifier -> option (list string).
(** [clf.predict_proba(X)[0]] *)
Variable predict_proba : classifier -> DataFrame -> result (list Q).

(** The content of pa_outcome_model.pkl; [bundle_meta] is [None] when the
    bundle has no "meta" key. *)
Record Bundle : Type := {
  bundle_clf : classifier;
  bundle_le : LabelEncoder;
  bundle_meta : option Meta
}.

(** The two files next to the module; [None] when the file does not exist. *)
Record Files : Type := {
  pa_outcome_rates_json : option (list (string * Q));
  pa_outcome_model_pkl : option Bundle
}.

Definition load_league_rates (fs : Files) : result (list (string * Q)) :=
  match pa_outcome_rates_json fs with
  | None => Raise (FileNotFoundError "pa_outcome_rates.json")
  | Some rates => Ok rates
  end.

Definition load_outcome_model (fs : Files)
  : result (classifier * LabelEncoder * option (list string)) :=
  match pa_outcome_model_pkl fs with
  | None => Raise (FileNotFoundError "pa_outcome_model.pkl")
  | Some data =>
      let meta := match bundle_meta data with
                  | Some m => meta_feature_names m
                  | None => None
                  end in
      Ok (bundle_clf data, bundle_le data, meta)
  end.

(** [outcome_probs_for_sim] (pa_model.py) *)
Definition outcome_probs_for_sim (clf : classifier) (le : LabelEncoder)
    (count_id platoon_same inning outs : Z) (fnames_arg : option (list string))
  : result (list (string * Q)) :=
  let row : Row := [("count_id", CInt count_id); ("platoon_same", CInt platoon_same)] in
  fnames <- py_or fnames_arg (feature_names_in_ clf) (feature_names clf) ;;
  let fnames := match fnames with
                | None => ["count_id"; "platoon_same"]
                | Some l => l
                end in
  let row := if mem "inning" fnames then dict_set "inning" (CInt inning) row else row in
  let row := if mem "outs_when_up" fnames then dict_set "outs_when_up" (CInt outs) row else row in
  let X := {| columns := map fst row; rows := [row] |} in
  let X := project (filter (fun c => has_col c X) fnames) X in
  probs <- predict_proba clf X ;;
  Ok (dict_of (combine (classes_ le) probs)).

(** The [try] block ends in [None] when it raised FileNotFoundError, the
    one exception the [except] clause catches. *)
Definition get_outcome_probs (fs : Files) (count_balls count_strikes : Z)
    (same_hand use_ml : bool) : result (list (string * Q)) :=
  let attempt :=
    if use_ml then
      match
        ('(clf, le, meta) <- load_outcome_model fs ;;
         let count_id := count_id count_balls count_strikes in
         let platoon_same := if same_hand then 1%Z else 0%Z in
         outcome_probs_for_sim clf le count_id platoon_same 5 0 meta)
      with
      | Raise (FileNotFoundError _) => None
      | r => Some r
      end
    else None in
  match attempt with
  | Some r => r
  | None => load_league_rates fs
  end.

End Sim.

(** ** The rule list of the specification (section 4.1) *)

(** A rule's test on the string it is given. *)
Inductive rule_test : Type :=
| ExactMatch (s : string)
| Containing (sub : string).

Definition rule_holds (t : rule_test) (e : string) : bool :=
  match t with
  | ExactMatch s => e =? s
  | Containing sub => PyStr.contains sub e
  end.

(** Rules 2 to 10, in the order of the specification; rule 1 (missing) and
    rule 11 (anything else) are the two defaults of [classify_by_rules]. *)
Definition spec_rules : list (rule_test * string) :=
  [ (ExactMatch "walk", "Walk");
    (ExactMatch "hit_by_pitch", "HBP");
    (ExactMatch "single", "Single");
    (Containing "double_play", "Out");
    (ExactMatch "double", "Double");
    (Containing "triple_play", "Out");
    (ExactMatch "triple", "Triple");
    (ExactMatch "home_run", "HR");
    (Containing "strikeout", "Strikeout") ].

Fixpoint first_match (rules : list (rule_test * string)) (e : string) : string :=
  match rules with
  | [] => "Out"
  | (t, outcome) :: rest => if rule_holds t e then outcome else first_match rest e
  end.

(** The eleven rules, first match wins, tried on [prepare s]. *)
Definition classify_by_rules (prepare : string -> string) (event : option string) : string :=
  match event with
  | None => "Out"
  | Some s => first_match spec_rules (prepare s)
  end.

(** The normalization [_event_to_outcome] applies before its first test. *)
Definition normalize (s : string) : string := PyStr.strip (PyStr.lower s).

(** ** Vocabulary of the statements *)

(** The rows the aggregator tallies: all of them, or those whose
    "platoon_matchup" equals the filter. *)
Definition tally_rows (platoon_filter : option string) (pas : DataFrame) : list Row :=
  match platoon_filter with
  | None => rows pas
  | Some wanted => filter (fun r => cell_eq_str wanted (row_get "platoon_matchup" r)) (rows pas)
  end.

(** The cell is one of the eight outcome categories. *)
Definition valid_label (v : cell) : Prop :=
  exists s, v = CStr s /\ In s OUTCOME_ORDER.

(** The frame has an "outcome" column, and each label in it is one of the
    eight categories, as the event classifier produces them. *)
Definition labeled (pas : DataFrame) : Prop :=
  has_col "outcome" pas = true
  /\ Forall (fun r => valid_label (row_get "outcome" r)) (rows pas).

Definition sum_rates (rates : list (string * Q)) : Q :=
  fold_right (fun kv acc => snd kv + acc) 0 rates.

(** The mapping that gives every category the frequency 0.0. *)
Definition all_zero_rates : list (string * Q) :=
  map (fun outcome => (outcome, 0)) OUTCOME_ORDER.

(** The number is not negative. *)
Definition num_nonneg (n : num) : Prop :=
  match n with
  | NInt z => (0 <= z)%Z
  | NFloat q => (0 <= q)%Q
  | NInf negative => negative = false
  end.

(** Column [dst] computed cell by cell from column [src]: the shape shared
    by [map_events_to_outcomes] and by the coercion of a count column. *)
Definition rewrite_col (g : cell -> result cell) (src dst : string) (df : DataFrame)
  : result DataFrame :=
  values <- get_col src df ;;
  values' <- mapM g values ;;
  Ok (set_col dst values' df).

(** The values of column [c], row by row ([NaN] where a row has none). *)
Definition column (c : string) (df : DataFrame) : Series := map (row_get c) (rows df).

(** The coerced count as a cell. *)
Definition int_cell (pd : Pandas) (cast : num -> Z) (v : cell) : result cell :=
  z <- coerce_int_cell pd cast v ;; Ok (CInt z).

(** The integer is in the int64 range. *)
Definition int64 (z : Z) : Prop := (- 2 ^ 63 <= z < 2 ^ 63)%Z.

(** The body of [load_pa_dataset] past its emptiness test. *)
Definition label_and_coerce (pd : Pandas) (pas : DataFrame)
  : result DataFrame :=
  pas <- map_events_to_outcomes pas ;;
  foldM (fun pas col => coerce_count_col pd col pas) ["balls"; "strikes"] pas.

(** The cell is a string or is missing: what the classifier accepts. *)
Definition is_text (v : cell) : Prop :=
  v = CNa \/ exists s, v = CStr s.

(** [pd.to_numeric] reads no infinite value from the cell. *)
Definition reads_finite (pd : Pandas) (v : cell) : Prop :=
  forall negative, to_numeric pd v <> Some (NInf negative).

(** How a count cell of the loaded dataset relates to the fetched cell, for
    the cast its column gets: the loaded cell is an int64; it is 0 where the
    fetched cell reads as no number; where the fetched cell reads as a number
    numpy holds exactly, it is that number with its fraction cut off, and is
    not negative when the number is not. *)
Definition count_loaded (pd : Pandas) (cast : num -> Z) (fetched loaded : cell) : Prop :=
  exists z,
    loaded = CInt z
    /\ coerce_int_cell pd cast fetched = Ok z
    /\ int64 z
    /\ (to_numeric pd fetched = None -> z = 0%Z)
    /\ (forall n, to_numeric pd fetched = Some n -> held_exactly n = true ->
                  z = truncate n /\ (num_nonneg n -> (0 <= z)%Z)).

(** ** Sample data *)

(** The rate file of the specification's query scenario. *)
Definition sample_rate_file : list (string * Q) :=
  [ ("Walk", 8 # 100); ("HBP", 1 # 100); ("Single", 15 # 100); ("Double", 5 # 100);
    ("Triple", 5 # 1000); ("HR", 3 # 100); ("Strikeout", 22 # 100); ("Out", 455 # 1000) ].

(** Rate file present, model file absent; the classifier type is immaterial. *)
Definition sample_files : Files unit :=
  {| pa_outcome_rates_json := Some sample_rate_file; pa_outcome_model_pkl := None |}.

(** One labeled plate appearance, left-handed batter against a right-handed
    pitcher; the frame has no "platoon_matchup" column. *)
Definition opposite_hand_frame : DataFrame :=
  {| columns := ["events"; "outcome"; "stand"; "p_throws"];
     rows := [ [("events", CStr "field_out"); ("outcome", CStr "Out");
                ("stand", CStr "L"); ("p_throws", CStr "R")] ] |}.

(** Three labeled plate appearances with a "platoon_matchup" column. *)
Definition matchup_frame : DataFrame :=
  {| columns := ["outcome"; "platoon_matchup"];
     rows := [ [("outcome", CStr "Walk"); ("platoon_matchup", CStr "opposite")];
               [("outcome", CStr "Out"); ("platoon_matchup", CStr "opposite")];
               [("outcome", CStr "Out"); ("platoon_matchup", CStr "opposite")] ] |}.

(** Three plate appearances: one labeled Walk, one with a label outside the
    eight categories, one with no label. *)
Definition mixed_frame : DataFrame :=
  {| columns := ["outcome"; "balls"; "strikes"; "stand"; "p_throws"];
     rows := [ [("outcome", CStr "Walk"); ("balls", CInt 3); ("strikes", CInt 1);
                ("stand", CStr "L"); ("p_throws", CStr "R")];
               [("outcome", CStr "Foul"); ("balls", CInt 0); ("strikes", CStr "two");
                ("stand", CStr "R"); ("p_throws", CStr "r")];
               [("outcome", CNa); ("balls", CNa); ("strikes", CInt 2);
                ("stand", CStr "R"); ("p_throws", CNa)] ] |}.

(** What Python's [str.upper] makes of a Latin-1 character beyond ASCII:
    the small letters U+00E0..U+00FE (U+00F7, the division sign, is no
    letter) move down by 32; U+00DF becomes "SS", U+00B5 becomes U+039C and
    U+00FF becomes U+0178. *)
Definition latin1_upper (c : ascii) : list N :=
  let n := PyStr.code c in
  if ((224 <=? n) && (n <=? 254) && negb (n =? 247))%N then [(n - 32)%N]
  else if (n =? 223)%N then [83%N; 83%N]
  else if (n =? 181)%N then [924%N]
  else if (n =? 255)%N then [376%N]
  else [n].

(** A pandas that reads no string as a number, casts what numpy does not
    hold exactly to the smallest int64, upper-cases as Python does, and
    gives a column without values a numeric dtype. *)
Definition plain_pandas : Pandas :=
  {| parse_numeric := fun _ => None;
     int64_cast := fun _ _ => (- 2 ^ 63)%Z;
     upper_special := latin1_upper;
     object_dtype := fun _ => false |}.

(** The features and the labels [build_features] returns for [mixed_frame]. *)
Definition mixed_features : DataFrame :=
  match build_features plain_pandas mixed_frame with
  | Ok (X, _) => X
  | Raise _ => empty_frame
  end.

Definition mixed_labels : Series :=
  match build_features plain_pandas mixed_frame with
  | Ok (_, y) => y
  | Raise _ => []
  end.

(** A fetched frame of one plate appearance whose ball count is the integer
    -1 and whose strike count is a string that is no number. *)
Definition negative_count_source : DataFrame :=
  {| columns := ["events"; "balls"; "strikes"];
     rows := [ [("events", CStr "single"); ("balls", CInt (-1)); ("strikes", CStr "n/a")] ] |}.

(** Two plate appearances, neither with a label among the eight categories,
    and what [build_features] returns for them. *)
Definition unlabeled_frame : DataFrame :=
  {| columns := ["outcome"; "balls"; "strikes"; "stand"; "p_throws"];
     rows := [ [("outcome", CStr "Foul"); ("balls", CInt 0); ("strikes", CStr "two");
                ("stand", CStr "R"); ("p_throws", CStr "r")];
               [("outcome", CNa); ("balls", CNa); ("strikes", CInt 2);
                ("stand", CStr "R"); ("p_throws", CNa)] ] |}.

Definition unlabeled_features : DataFrame :=
  match build_features plain_pandas unlabeled_frame with
  | Ok (X, _) => X
  | Raise _ => empty_frame
  end.

Definition unlabeled_labels : Series :=
  match build_features plain_pandas unlabeled_frame with
  | Ok (_, y) => y
  | Raise _ => []
  end.

(** A stand-in for the fit that hands back what it was given. *)
Definition echo_fit (X : DataFrame) (y : Series) (test_size : Q) (random_state : Z)
  : result (DataFrame * Series) := Ok (X, y).

(** A stand-in for [predict_proba] that answers with the "count_id" it is
    asked about. *)
Definition probe_predict (clf : unit) (X : DataFrame) : result (list Q) :=
  match rows X with
  | [r] => match row_get "count_id" r with
           | CInt z => Ok [inject_Z z]
           | _ => Ok []
           end
  | _ => Ok []
  end.

(** Rate file and model file both present. *)
Definition files_with_model : Files unit :=
  {| pa_outcome_rates_json := Some sample_rate_file;
     pa_outcome_model_pkl :=
       Some {| bundle_clf := tt;
               bundle_le := {| classes_ := ["Out"] |};
               bundle_meta := Some {| meta_feature_names := Some ["count_id"; "platoon_same"] |} |} |}.

(** ** Vocabulary of the further properties *)

(** The string is not empty and its last character is no whitespace. *)
Fixpoint solid_end (x : string) : Prop :=
  match x with
  | EmptyString => False
  | String a EmptyString => PyStr.isspace a = false
  | String _ x' => solid_end x'
  end.

(** The string is not empty and its first character is no whitespace. *)
Definition solid_start (x : string) : Prop :=
  match x with
  | EmptyString => False
  | String a _ => PyStr.isspace a = false
  end.

(** The table the aggregator builds from the labels of the tallied rows. *)
Definition rate_table (labels : Series) : list (string * Q) :=
  map (fun outcome =>
         (outcome,
          match List.length labels with
          | O => 0
          | S _ => Z.of_nat (count_outcome outcome labels) # Pos.of_nat (List.length labels)
          end))
      OUTCOME_ORDER.

(** The frame whose rows the aggregator tallies: the frame itself when it has
    an "outcome" column, the frame labeled by [map_events_to_outcomes]
    when it has none. *)
Definition labeled_first (pas : DataFrame) : result DataFrame :=
  if negb (has_col "outcome" pas) then map_events_to_outcomes pas else Ok pas.

(** A fetch of three pitches: one in the middle of a plate appearance (no
    event), and two that end one. *)
Definition three_pitch_source : DataFrame :=
  {| columns := ["events"; "balls"; "strikes"; "stand"; "p_throws"];
     rows := [ [("events", CNa); ("balls", CInt 1); ("strikes", CInt 0);
                ("stand", CStr "L"); ("p_throws", CStr "R")];
               [("events", CStr "Walk"); ("balls", CInt 3); ("strikes", CInt 1);
                ("stand", CStr "L"); ("p_throws", CStr "R")];
               [("events", CStr "strikeout"); ("balls", CFloat (1 # 1)); ("strikes", CStr "2");
                ("stand", CStr "R"); ("p_throws", CStr "r")] ] |}.

(** A source that hands out [three_pitch_source] for every date range. *)
Definition three_pitch_statcast (start_dt end_dt : string) : option DataFrame :=
  Some three_pitch_source.

(** A source with nothing to hand out. *)
Definition silent_statcast (start_dt end_dt : string) : option DataFrame := None.

(** The dataset loaded from [three_pitch_source]. *)
Definition three_pitch_loaded : DataFrame :=
  match load_pa_dataset three_pitch_statcast plain_pandas "2024-04-01" "2024-04-02" with
  | Ok ds => ds
  | Raise _ => empty_frame
  end.

(** The coerced count of a cell, 0 where the coercion raises. *)
Definition count_value (pd : Pandas) (cast : num -> Z) (v : cell) : Z :=
  match coerce_int_cell pd cast v with
  | Ok z => z
  | Raise _ => 0%Z
  end.

(** One row of the frame [build_features] works on, after all its column
    assignments; [inning] and [outs] tell whether the optional columns are
    there, [cast_balls] and [cast_strikes] are the casts the two count
    columns get. *)
Definition featured_row (pd : Pandas) (cast_balls cast_strikes : num -> Z)
    (inning outs : bool) (r : Row) : Row :=
  let balls := count_value pd cast_balls (row_get "balls" r) in
  let r := dict_set "balls" (CInt balls) r in
  let strikes := count_value pd cast_strikes (row_get "strikes" r) in
  let r := dict_set "strikes" (CInt strikes) r in
  let r := dict_set "count_id" (CInt (wrap64 (count_id balls strikes))) r in
  let r := dict_set "platoon_same"
             (CInt (same_upper pd (row_get "stand" r) (row_get "p_throws" r))) r in
  let r := if inning
           then dict_set "inning"
                  (cell_of_num (fillna0 (to_numeric pd (row_get "inning" r)))) r
           else r in
  if outs
  then dict_set "outs_when_up"
         (cell_of_num (fillna0 (to_numeric pd (row_get "outs_when_up" r)))) r
  else r.

(** The feature columns, in the order [build_features] collects them. *)
Definition feature_columns (pas : DataFrame) : list string :=
  ["count_id"; "platoon_same"]
  ++ (if has_col "inning" pas then ["inning"] else [])
  ++ (if has_col "outs_when_up" pas then ["outs_when_up"] else []).

(** The frame of features and the labels [build_features] returns. *)
Definition features_of (pd : Pandas) (pas : DataFrame) : DataFrame * Series :=
  ({| columns := feature_columns pas;
      rows := map (featured_row pd (int64_cast pd (column "balls" pas))
                                (int64_cast pd (column "strikes" pas))
                                (has_col "inning" pas) (has_col "outs_when_up" pas))
                  (rows pas) |},
   map (row_get "outcome") (rows pas)).

(** The five columns [build_features] reads are there, no ball or strike
    count reads as an infinite number, and the two handedness columns are
    ones pandas grants [.str] on. *)
Definition featurable (pd : Pandas) (pas : DataFrame) : Prop :=
  has_col "balls" pas = true
  /\ has_col "strikes" pas = true
  /\ has_col "stand" pas = true
  /\ has_col "p_throws" pas = true
  /\ has_col "outcome" pas = true
  /\ Forall (fun r => reads_finite pd (row_get "balls" r)
                      /\ reads_finite pd (row_get "strikes" r)) (rows pas)
  /\ str_accepted pd (column "stand" pas) = true
  /\ str_accepted pd (column "p_throws" pas) = true.

(** The four names a query row can carry. *)
Definition known_feature (c : string) : bool :=
  mem c ["count_id"; "platoon_same"; "inning"; "outs_when_up"].

(** The row [outcome_probs_for_sim] builds for the feature names [fnames]. *)
Definition query_row (count_id platoon_same inning outs : Z) (fnames : list string) : Row :=
  let row := [("count_id", CInt count_id); ("platoon_same", CInt platoon_same)] in
  let row := if mem "inning" fnames then dict_set "inning" (CInt inning) row else row in
  if mem "outs_when_up" fnames then dict_set "outs_when_up" (CInt outs) row else row.

(** Neither file is there. *)
Definition no_files : Files unit :=
  {| pa_outcome_rates_json := None; pa_outcome_model_pkl := None |}.

(** What the loader needs of a fetched row: an event that is a string or is
    missing, and counts that read finite in the count columns the frame has. *)
Definition loadable_row (pd : Pandas) (pas : DataFrame) (r : Row)
  : Prop :=
  is_text (row_get "events" r)
  /\ forall col, In col ["balls"; "strikes"] -> has_col col pas = true ->
                 reads_finite pd (row_get col r).

(** * Properties *)

(** ** Strings *)

Module PyStrFacts.
Import PyStr.

Ltac each_char c :=
  destruct c as [b0 b1 b2 b3 b4 b5 b6 b7];
  destruct b0, b1, b2, b3, b4, b5, b6, b7; reflexivity.

Lemma lower_char_idem (c : ascii) : lower_char (lower_char c) = lower_char c.
Proof. each_char c. Qed.

Lemma isspace_lower_char (c : ascii) : isspace (lower_char c) = isspace c.
Proof. each_char c. Qed.

Lemma lower_idem (s : string) : lower (lower s) = lower s.
Proof.
  induction s as [|c t IH]; simpl; [reflexivity|].
  now rewrite lower_char_idem, IH.
Qed.

Lemma lower_lstrip (s : string) : lower (lstrip s) = lstrip (lower s).
Proof.
  induction s as [|c t IH]; simpl; [reflexivity|].
  rewrite isspace_lower_char.
  destruct (isspace c); [exact IH | reflexivity].
Qed.

Lemma lower_rstrip (s : string) : lower (rstrip s) = rstrip (lower s).
Proof.
  induction s as [|c t IH]; simpl; [reflexivity|].
  rewrite <- IH, isspace_lower_char.
  destruct (rstrip t) as [|d r]; simpl.
  - destruct (isspace c); reflexivity.
  - reflexivity.
Qed.

Lemma lower_strip (s : string) : lower (strip s) = strip (lower s).
Proof. unfold strip. now rewrite lower_rstrip, lower_lstrip. Qed.

Lemma rstrip_idem (s : string) : rstrip (rstrip s) = rstrip s.
Proof.
  induction s as [|c t IH]; simpl; [reflexivity|].
  destruct (rstrip t) as [|d r] eqn:E.
  - destruct (isspace c) eqn:Ec; simpl; [reflexivity | now rewrite Ec].
  - simpl in IH |- *. now rewrite IH.
Qed.

Lemma lstrip_no_leading_space (s : string) : no_leading_space (lstrip s).
Proof.
  induction s as [|c t IH]; simpl; [exact I|].
  destruct (isspace c) eqn:Ec; [exact IH | exact Ec].
Qed.

Lemma lstrip_fixed (s : string) : no_leading_space s -> lstrip s = s.
Proof. destruct s as [|c t]; simpl; [reflexivity|]. now intros ->. Qed.

Lemma rstrip_no_leading_space (s : string) :
  no_leading_space s -> no_leading_space (rstrip s).
Proof.
  destruct s as [|c t]; simpl; [trivial|]. intros Hc.
  destruct (rstrip t); [rewrite Hc|]; exact Hc.
Qed.

Lemma strip_idem (s : string) : strip (strip s) = strip s.
Proof.
  unfold strip.
  rewrite (lstrip_fixed (rstrip (lstrip s))).
  - apply rstrip_idem.
  - apply rstrip_no_leading_space, lstrip_no_leading_space.
Qed.

Lemma normalize_idem (s : string) : normalize (normalize s) = normalize s.
Proof.
  unfold normalize.
  now rewrite lower_strip, lower_idem, strip_idem.
Qed.

End PyStrFacts.

(** ** The event classifier *)

Module Classifier.
Import PyStr.

(** The second half of [x in e or e == x] never decides. *)
Lemma or_equal_redundant (x e : string) :
  contains x x = true -> contains x e || (e =? x) = contains x e.
Proof.
  intros Hx. destruct (e =? x) eqn:E.
  - apply String.eqb_eq in E. subst e. now rewrite Hx.
  - apply orb_false_r.
Qed.

Lemma unfold_classifier (s : string) :
  _event_to_outcome (Some s) = first_match spec_rules (normalize s).
Proof.
  unfold _event_to_outcome, normalize. cbn [spec_rules first_match rule_holds].
  generalize (strip (lower s)); intro e.
  rewrite !or_equal_redundant by reflexivity.
  reflexivity.
Qed.

Lemma first_match_in_order (e : string) : In (first_match spec_rules e) OUTCOME_ORDER.
Proof.
  cbn [spec_rules first_match].
  repeat match goal with
         | |- context [rule_holds ?t e] =>
             destruct (rule_holds t e); [cbv [OUTCOME_ORDER In]; tauto|]
         end.
  cbv [OUTCOME_ORDER In]; tauto.
Qed.

(** A string that contains "double_play" is classified as Out, whatever
    else it contains. *)
Lemma double_play_wins (e : string) :
  contains "double_play" e = true -> first_match spec_rules e = "Out".
Proof.
  intros H. cbn [spec_rules first_match rule_holds].
  destruct (e =? "walk") eqn:E1.
  { apply String.eqb_eq in E1; subst e; discriminate H. }
  destruct (e =? "hit_by_pitch") eqn:E2.
  { apply String.eqb_eq in E2; subst e; discriminate H. }
  destruct (e =? "single") eqn:E3.
  { apply String.eqb_eq in E3; subst e; discriminate H. }
  now rewrite H.
Qed.

(** A string that contains "triple_play" is classified as Out as well. *)
Lemma triple_play_wins (e : string) :
  contains "triple_play" e = true -> first_match spec_rules e = "Out".
Proof.
  intros H. cbn [spec_rules first_match rule_holds].
  destruct (e =? "walk") eqn:E1.
  { apply String.eqb_eq in E1; subst e; discriminate H. }
  destruct (e =? "hit_by_pitch") eqn:E2.
  { apply String.eqb_eq in E2; subst e; discriminate H. }
  destruct (e =? "single") eqn:E3.
  { apply String.eqb_eq in E3; subst e; discriminate H. }
  destruct (contains "double_play" e); [reflexivity|].
  destruct (e =? "double") eqn:E4.
  { apply String.eqb_eq in E4; subst e; discriminate H. }
  now rewrite H.
Qed.

End Classifier.

(** C1 (as the code has it): on "strikeout_double_play", "field_error",
    "sac_fly" and "grounded_into_double_play" the classifier returns Out, Out,
    Out and Out: the "double_play" test comes before the "strikeout" test. *)
Theorem corpus_outcomes :
  map (fun s => _event_to_outcome (Some s))
      ["strikeout_double_play"; "field_error"; "sac_fly"; "grounded_into_double_play"]
  = ["Out"; "Out"; "Out"; "Out"].
Proof. reflexivity. Qed.

(** C1, as stated, fails: "strikeout_double_play" is not classified as
    Strikeout, so the four results are not Strikeout, Out, Out, Out. *)
Lemma corpus_outcomes_not_as_stated :
  map (fun s => _event_to_outcome (Some s))
      ["strikeout_double_play"; "field_error"; "sac_fly"; "grounded_into_double_play"]
  <> ["Strikeout"; "Out"; "Out"; "Out"].
Proof. vm_compute. discriminate. Qed.

(** C2 (as the code has it): the classifier lowercases the string and strips
    the whitespace around it, and on that normalized string it is the
    eleven rules of the specification tried in order, the first match
    deciding: a missing value gives Out; "double_play" and "triple_play"
    inside the normalized string give Out before "double" and "triple" are
    compared; and the result is always one of the eight categories. *)
Theorem classifier_follows_rules (event : option string) :
  _event_to_outcome event = classify_by_rules normalize event
  /\ In (_event_to_outcome event) OUTCOME_ORDER
  /\ (forall s, event = Some s -> PyStr.contains "double_play" (normalize s) = true ->
      _event_to_outcome event = "Out")
  /\ (forall s, event = Some s -> PyStr.contains "triple_play" (normalize s) = true ->
      _event_to_outcome event = "Out").
Proof.
  destruct event as [s|].
  - rewrite Classifier.unfold_classifier. cbn [classify_by_rules].
    split; [reflexivity|]. split; [apply Classifier.first_match_in_order|].
    split; intros s' [= <-] H.
    + now apply Classifier.double_play_wins.
    + now apply Classifier.triple_play_wins.
  - cbn. split; [reflexivity|]. split; [tauto|]. split; intros s' [=].
Qed.

(** C2, as stated, fails: the rules are not tried on the string as given. The
    string " walk" matches none of rules 2 to 10 as it stands, nor after
    lowercasing alone, so the rules give Out, and the code gives Walk;
    "HIT_BY_PITCH" is no exact match of "hit_by_pitch", and the code gives
    HBP. *)
Lemma rules_on_the_given_string_differ :
  (_event_to_outcome (Some " walk") = "Walk"
   /\ classify_by_rules (fun s => s) (Some " walk") = "Out"
   /\ classify_by_rules PyStr.lower (Some " walk") = "Out")
  /\ (_event_to_outcome (Some "HIT_BY_PITCH") = "HBP"
      /\ classify_by_rules (fun s => s) (Some "HIT_BY_PITCH") = "Out").
Proof. repeat split. Qed.

(** C9: the classifier gives a string and its lowercased, stripped form the
    same result; "  Walk " is classified as Walk. *)
Theorem classifier_ignores_case_and_padding (s : string) :
  _event_to_outcome (Some s) = _event_to_outcome (Some (PyStr.strip (PyStr.lower s)))
  /\ _event_to_outcome (Some "  Walk ") = "Walk".
Proof.
  split; [|reflexivity].
  rewrite !Classifier.unfold_classifier.
  fold (normalize s). now rewrite PyStrFacts.normalize_idem.
Qed.

(** ** The count state *)

(** C8: on balls 0..3 and strikes 0..2, [count_id] tells the pairs apart and
    lies between 0 and 14. *)
Theorem count_id_injective_in_range (b1 s1 b2 s2 : Z) :
  (0 <= b1 <= 3)%Z -> (0 <= s1 <= 2)%Z -> (0 <= b2 <= 3)%Z -> (0 <= s2 <= 2)%Z ->
  (count_id b1 s1 = count_id b2 s2 -> b1 = b2 /\ s1 = s2)
  /\ (0 <= count_id b1 s1 <= 14)%Z.
Proof. unfold count_id. lia. Qed.

Lemma count_id_injective_in_range_witness :
  (count_id 3 2 = count_id 3 2 -> 3%Z = 3%Z /\ 2%Z = 2%Z)
  /\ (0 <= count_id 3 2 <= 14)%Z.
Proof. apply (count_id_injective_in_range 3 2 3 2); lia. Defined.

(** ** The probability server *)

Section SimFacts.
Variable classifier : Type.
Variable feature_names_in_ : classifier -> option (string * list string).
Variable feature_names : classifier -> option (list string).
Variable predict_proba : classifier -> DataFrame -> result (list Q).

Local Abbreviation query := (get_outcome_probs classifier feature_names_in_ feature_names predict_proba).

Lemma query_without_model (fs : Files classifier) (b s : Z) (h : bool) :
  query fs b s h false = load_league_rates classifier fs.
Proof. reflexivity. Qed.

Lemma query_model_missing (fs : Files classifier) (b s : Z) (h : bool) :
  pa_outcome_model_pkl classifier fs = None ->
  query fs b s h true = load_league_rates classifier fs.
Proof.
  intros Hm. unfold get_outcome_probs, load_outcome_model.
  now rewrite Hm.
Qed.

(** C3: with a rate file present, a query with [use_ml = false] returns
    the mapping of the file as it is; and when there is no model file a
    query with [use_ml = true] returns that same mapping, the result of the
    query with [use_ml = false]. *)
Theorem rate_file_returned_unchanged
    (fs : Files classifier) (b s : Z) (h : bool) (table : list (string * Q)) :
  pa_outcome_rates_json classifier fs = Some table ->
  query fs b s h false = Ok table
  /\ (pa_outcome_model_pkl classifier fs = None ->
      query fs b s h true = Ok table
      /\ query fs b s h true = query fs b s h false).
Proof.
  intros Hr.
  assert (Hf : query fs b s h false = Ok table).
  { rewrite query_without_model. unfold load_league_rates. now rewrite Hr. }
  split; [exact Hf|]. intros Hm.
  assert (Ht : query fs b s h true = query fs b s h false).
  { now rewrite query_model_missing, query_without_model. }
  split; [now rewrite Ht | exact Ht].
Qed.

(** C10: on the empirical path, that is with [use_ml = false], or with
    [use_ml = true] and no model file, the result is the same for all
    ball counts, strike counts and handedness flags. *)
Theorem empirical_path_ignores_context
    (fs : Files classifier) (b1 s1 b2 s2 : Z) (h1 h2 : bool) :
  query fs b1 s1 h1 false = query fs b2 s2 h2 false
  /\ (pa_outcome_model_pkl classifier fs = None ->
      query fs b1 s1 h1 true = query fs b2 s2 h2 true).
Proof.
  split.
  - now rewrite !query_without_model.
  - intros Hm. now rewrite !query_model_missing by exact Hm.
Qed.

End SimFacts.

(** With a model file present the context does reach the classifier: the
    answers for the counts 0-0 and 3-2 differ. *)
Example model_path_uses_context :
  get_outcome_probs unit (fun _ => None) (fun _ => None) probe_predict
    files_with_model 0 0 false true = Ok [("Out", inject_Z 0)]
  /\ get_outcome_probs unit (fun _ => None) (fun _ => None) probe_predict
       files_with_model 3 2 false true = Ok [("Out", inject_Z 14)].
Proof. split; reflexivity. Qed.

Lemma rate_file_returned_unchanged_witness :
  get_outcome_probs unit (fun _ => None) (fun _ => None) (fun _ _ => Ok [])
    sample_files 3 2 true false = Ok sample_rate_file
  /\ (pa_outcome_model_pkl unit sample_files = None ->
      get_outcome_probs unit (fun _ => None) (fun _ => None) (fun _ _ => Ok [])
        sample_files 3 2 true true = Ok sample_rate_file
      /\ get_outcome_probs unit (fun _ => None) (fun _ => None) (fun _ _ => Ok [])
           sample_files 3 2 true true
         = get_outcome_probs unit (fun _ => None) (fun _ => None) (fun _ _ => Ok [])
             sample_files 3 2 true false).
Proof.
  apply (rate_file_returned_unchanged unit (fun _ => None) (fun _ => None)
           (fun _ _ => Ok []) sample_files 3 2 true sample_rate_file).
  reflexivity.
Defined.

(** ** Lists, dictionaries and frames *)

Module Frames.

Lemma map2_length {A B C : Type} (f : A -> B -> C) (l : list A) (l' : list B) :
  List.length l' = List.length l -> List.length (map2 f l l') = List.length l.
Proof.
  revert l'; induction l as [|a t IH]; intros [|b t'] H; simpl in *; try discriminate; auto.
Qed.

Lemma mask_filter_map {A : Type} (p : A -> bool) (l : list A) :
  mask_filter (map p l) l = filter p l.
Proof.
  induction l as [|a t IH]; simpl; [reflexivity|].
  rewrite IH. reflexivity.
Qed.

Lemma mask_filter_map2 {A B : Type} (g : A -> B) (p : B -> bool) (l : list A) :
  mask_filter (map p (map g l)) l = filter (fun a => p (g a)) l.
Proof. rewrite map_map. apply (mask_filter_map (fun a => p (g a))). Qed.

Lemma mapM_length {A B : Type} (f : A -> result B) (l : list A) (l' : list B) :
  mapM f l = Ok l' -> List.length l' = List.length l.
Proof.
  revert l'; induction l as [|a t IH]; simpl; intros l' H.
  - now inversion H.
  - destruct (f a); simpl in H; [|discriminate].
    destruct (mapM f t); simpl in H; [|discriminate].
    inversion H; subst. simpl. now rewrite (IH _ eq_refl).
Qed.

Lemma dict_get_set_same {V : Type} (k : string) (v : V) (d : list (string * V)) :
  dict_get k (dict_set k v d) = Some v.
Proof.
  induction d as [|[k' v'] t IH]; simpl.
  - now rewrite String.eqb_refl.
  - destruct (k' =? k) eqn:E; simpl.
    + now rewrite String.eqb_refl.
    + now rewrite E.
Qed.

Lemma dict_get_set_other {V : Type} (k k' : string) (v : V) (d : list (string * V)) :
  k' <> k -> dict_get k (dict_set k' v d) = dict_get k d.
Proof.
  intros Hne. induction d as [|[k0 v0] t IH]; simpl.
  - destruct (k' =? k) eqn:E; [apply String.eqb_eq in E; contradiction | reflexivity].
  - destruct (k0 =? k') eqn:E0; simpl.
    + apply String.eqb_eq in E0; subst k0.
      destruct (k' =? k) eqn:E; [apply String.eqb_eq in E; contradiction | reflexivity].
    + destruct (k0 =? k); [reflexivity | exact IH].
Qed.

Lemma row_get_set_same (c : string) (v : cell) (r : Row) :
  row_get c (dict_set c v r) = v.
Proof. unfold row_get. now rewrite dict_get_set_same. Qed.

Lemma row_get_set_other (c c' : string) (v : cell) (r : Row) :
  c' <> c -> row_get c (dict_set c' v r) = row_get c r.
Proof. intros H. unfold row_get. now rewrite dict_get_set_other. Qed.

Lemma has_col_set_same (c : string) (v : Series) (df : DataFrame) :
  has_col c (set_col c v df) = true.
Proof.
  unfold set_col, has_col at 1; simpl.
  destruct (has_col c df) eqn:E; [exact E|].
  unfold mem. rewrite existsb_app. simpl. rewrite String.eqb_refl.
  now rewrite orb_true_r.
Qed.

Lemma has_col_set_keeps (c c' : string) (v : Series) (df : DataFrame) :
  has_col c df = true -> has_col c (set_col c' v df) = true.
Proof.
  intros H. unfold set_col, has_col at 1; simpl.
  destruct (has_col c' df); [exact H|].
  unfold mem. rewrite existsb_app. unfold has_col, mem in H. now rewrite H.
Qed.

Lemma get_col_ok (c : string) (df : DataFrame) :
  has_col c df = true -> get_col c df = Ok (map (row_get c) (rows df)).
Proof. intros H. unfold get_col. now rewrite H. Qed.

Lemma get_col_inv (c : string) (df : DataFrame) (s : Series) :
  get_col c df = Ok s -> has_col c df = true /\ s = map (row_get c) (rows df).
Proof.
  unfold get_col. destruct (has_col c df); [|discriminate].
  intros [= <-]. split; reflexivity.
Qed.

End Frames.

(** ** The rate aggregator *)

Module Rates.
Import Frames.

Local Open Scope Q_scope.

Lemma same_den_plus (a b : Z) (p : positive) : (a # p) + (b # p) == (a + b) # p.
Proof. unfold Qeq, Qplus; simpl. rewrite Pos2Z.inj_mul. ring. Qed.

(** A label among the eight categories counts for exactly one of them. *)
Lemma counts_add_up (labels : Series) :
  Forall valid_label labels ->
  (count_outcome "Walk" labels + count_outcome "HBP" labels
   + count_outcome "Single" labels + count_outcome "Double" labels
   + count_outcome "Triple" labels + count_outcome "HR" labels
   + count_outcome "Strikeout" labels + count_outcome "Out" labels
   = List.length labels)%nat.
Proof.
  induction 1 as [|v t Hv _ IH]; [reflexivity|].
  destruct Hv as (s & -> & Hs).
  unfold count_outcome in *. cbn [filter cell_eq_str].
  cbv [OUTCOME_ORDER In] in Hs.
  repeat (destruct Hs as [<- | Hs]; [cbn; lia|]).
  contradiction.
Qed.

Lemma count_le_length (outcome : string) (labels : Series) :
  (count_outcome outcome labels <= List.length labels)%nat.
Proof. unfold count_outcome. apply filter_length_le. Qed.

(** A quotient [count / n] with [count <= n] lies in [0, 1]. *)
Lemma quotient_in_unit_interval (c n : nat) :
  (c <= S n)%nat -> 0 <= Z.of_nat c # Pos.of_nat (S n) <= 1.
Proof.
  intros H. unfold Qle; cbn [Qnum Qden].
  rewrite <- Pos.of_nat_succ, Zpos_P_of_succ_nat. lia.
Qed.

(** The table of quotients over valid labels is a distribution. *)
Lemma table_is_distribution (labels : Series) (n : nat) :
  Forall valid_label labels ->
  List.length labels = S n ->
  forall table,
    table = map (fun outcome =>
                   (outcome, Z.of_nat (count_outcome outcome labels) # Pos.of_nat (S n)))
                OUTCOME_ORDER ->
    map fst table = OUTCOME_ORDER
    /\ Forall (fun kv => 0 <= snd kv <= 1) table
    /\ sum_rates table == 1.
Proof.
  intros Hvalid Hlen table ->.
  split; [reflexivity|]. split.
  - apply Forall_map, Forall_forall. intros outcome _. cbn [snd].
    apply quotient_in_unit_interval.
    rewrite <- Hlen. apply count_le_length.
  - pose proof (counts_add_up labels Hvalid) as Hsum.
    rewrite Hlen in Hsum.
    cbn [sum_rates OUTCOME_ORDER map fold_right snd].
    rewrite Qplus_0_r. rewrite !same_den_plus.
    unfold Qeq; cbn [Qnum Qden].
    rewrite <- Pos.of_nat_succ, Zpos_P_of_succ_nat. lia.
Qed.

(** The loop over [OUTCOME_ORDER] when no row is tallied. *)
Lemma tally_of_nothing (pas : DataFrame) :
  foldM (fun rates outcome => r <- rate_of outcome pas 0 ;; Ok (dict_set outcome r rates))
        OUTCOME_ORDER []
  = Ok all_zero_rates.
Proof. reflexivity. Qed.

(** The loop over [OUTCOME_ORDER] on a frame with an "outcome" column and
    at least one row. *)
Lemma tally_of_rows (pas : DataFrame) (n : nat) :
  has_col "outcome" pas = true ->
  foldM (fun rates outcome => r <- rate_of outcome pas (S n) ;; Ok (dict_set outcome r rates))
        OUTCOME_ORDER []
  = Ok (map (fun outcome =>
               (outcome,
                Z.of_nat (count_outcome outcome (map (row_get "outcome") (rows pas)))
                # Pos.of_nat (S n)))
            OUTCOME_ORDER).
Proof.
  intros H. unfold rate_of. rewrite (get_col_ok _ _ H).
  reflexivity.
Qed.

(** The frame the tally runs on, for a frame that already has its labels. *)
Lemma selection (pas : DataFrame) (platoon_filter : option string) :
  has_col "outcome" pas = true ->
  platoon_filter = None \/ has_col "platoon_matchup" pas = true ->
  league_rates_from_data pas platoon_filter
  = foldM (fun rates outcome =>
             r <- rate_of outcome
                    {| columns := columns pas; rows := tally_rows platoon_filter pas |}
                    (List.length (tally_rows platoon_filter pas)) ;;
             Ok (dict_set outcome r rates))
          OUTCOME_ORDER [].
Proof.
  intros Ho Hp. unfold league_rates_from_data. rewrite Ho. cbn [negb bind].
  destruct platoon_filter as [wanted|]; cbn [tally_rows].
  - destruct Hp as [Hp|Hp]; [discriminate|].
    rewrite Hp. cbn [negb bind]. rewrite (get_col_ok _ _ Hp). cbn [bind].
    unfold select_rows, len. cbn [rows].
    rewrite mask_filter_map2. reflexivity.
  - destruct pas; reflexivity.
Qed.

Lemma import_fails (pas : DataFrame) (wanted : string) :
  has_col "outcome" pas = true ->
  has_col "platoon_matchup" pas = false ->
  league_rates_from_data pas (Some wanted)
  = Raise (ImportError "cannot import name 'add_platoon_info' from 'pa_data'").
Proof.
  intros Ho Hp. unfold league_rates_from_data. rewrite Ho. cbn [negb bind].
  now rewrite Hp.
Qed.

End Rates.

(** C4 (the code at the failing input): a labeled frame with one
    plate appearance, batter and pitcher of opposite hands and so no
    same-handed row, and no "platoon_matchup" column. With the filter "same"
    the aggregator does not return the all-zero mapping: it raises the
    ImportError of [from pa_data import add_platoon_info], a name that
    pa_data.py does not define. *)
Theorem platoon_filter_raises_import_error :
  has_col "outcome" opposite_hand_frame = true
  /\ league_rates_from_data opposite_hand_frame (Some "same")
     = Raise (ImportError "cannot import name 'add_platoon_info' from 'pa_data'")
  /\ league_rates_from_data opposite_hand_frame (Some "same") <> Ok all_zero_rates.
Proof. repeat split. discriminate. Qed.

(** Where the aggregator gets as far as its tally (no filter, or a frame
    that has a "platoon_matchup" column), an empty row set gives every
    category the frequency 0.0. *)
Theorem empty_tally_gives_zero_rates (pas : DataFrame) (platoon_filter : option string) :
  has_col "outcome" pas = true ->
  platoon_filter = None \/ has_col "platoon_matchup" pas = true ->
  tally_rows platoon_filter pas = [] ->
  league_rates_from_data pas platoon_filter = Ok all_zero_rates
  /\ map fst all_zero_rates = OUTCOME_ORDER
  /\ Forall (fun kv => snd kv = 0%Q) all_zero_rates.
Proof.
  intros Ho Hp He. rewrite (Rates.selection _ _ Ho Hp), He.
  split; [apply Rates.tally_of_nothing|].
  split; [reflexivity | repeat constructor].
Qed.

Lemma empty_tally_gives_zero_rates_witness :
  league_rates_from_data matchup_frame (Some "same") = Ok all_zero_rates
  /\ map fst all_zero_rates = OUTCOME_ORDER
  /\ Forall (fun kv => snd kv = 0%Q) all_zero_rates.
Proof.
  apply (empty_tally_gives_zero_rates matchup_frame (Some "same"));
    [reflexivity | right; reflexivity | reflexivity].
Defined.

(** C5: for a frame whose labels are among the eight categories and whose
    tallied row set is not empty, the table the aggregator returns has the
    eight categories as its keys, every frequency in [0, 1], and
    frequencies that add up to 1 (the quotients are exact rationals here);
    and the aggregator does return a table when no filter is given or the
    frame has a "platoon_matchup" column. *)
Theorem rates_form_a_distribution (pas : DataFrame) (platoon_filter : option string) :
  labeled pas ->
  tally_rows platoon_filter pas <> [] ->
  (forall rates,
      league_rates_from_data pas platoon_filter = Ok rates ->
      map fst rates = OUTCOME_ORDER
      /\ Forall (fun kv => (0 <= snd kv <= 1)%Q) rates
      /\ (sum_rates rates == 1)%Q)
  /\ (platoon_filter = None \/ has_col "platoon_matchup" pas = true ->
      exists rates, league_rates_from_data pas platoon_filter = Ok rates).
Proof.
  intros [Ho Hl] Hne.
  assert (Hcase : (platoon_filter = None \/ has_col "platoon_matchup" pas = true)
                  \/ (exists w, platoon_filter = Some w)
                     /\ has_col "platoon_matchup" pas = false).
  { destruct platoon_filter as [w|]; [|left; left; reflexivity].
    destruct (has_col "platoon_matchup" pas); [left; right; reflexivity|].
    right; split; [exists w|]; reflexivity. }
  destruct Hcase as [Hp | [(w & ->) Hp]].
  2:{ rewrite (Rates.import_fails _ _ Ho Hp).
      split; [discriminate | intros [H | H]; [discriminate | congruence]]. }
  rewrite (Rates.selection _ _ Ho Hp).
  set (sel := {| columns := columns pas; rows := tally_rows platoon_filter pas |}).
  destruct (tally_rows platoon_filter pas) as [|r0 rest] eqn:Et; [contradiction|].
  cbn [List.length].
  rewrite (Rates.tally_of_rows sel (List.length rest) Ho).
  split; [|intros _; eexists; reflexivity].
  intros rates Hr.
  set (labels := map (row_get "outcome") (rows sel)) in *.
  assert (Hlen : List.length labels = S (List.length rest)).
  { unfold labels, sel. cbn [rows]. now rewrite length_map. }
  assert (Hvalid : Forall valid_label labels).
  { unfold labels, sel. cbn [rows]. rewrite <- Et.
    apply Forall_map, Forall_forall. intros r Hin.
    rewrite Forall_forall in Hl. apply Hl.
    destruct platoon_filter; cbn [tally_rows] in Hin; [|exact Hin].
    apply filter_In in Hin. tauto. }
  apply (Rates.table_is_distribution labels _ Hvalid Hlen).
  injection Hr as <-. reflexivity.
Qed.

Lemma rates_form_a_distribution_witness :
  (forall rates,
      league_rates_from_data matchup_frame (Some "opposite") = Ok rates ->
      map fst rates = OUTCOME_ORDER
      /\ Forall (fun kv => (0 <= snd kv <= 1)%Q) rates
      /\ (sum_rates rates == 1)%Q)
  /\ (Some "opposite" = None \/ has_col "platoon_matchup" matchup_frame = true ->
      exists rates, league_rates_from_data matchup_frame (Some "opposite") = Ok rates).
Proof.
  apply (rates_form_a_distribution matchup_frame (Some "opposite")).
  - split; [reflexivity|].
    repeat constructor; eexists; (split; [reflexivity | cbv [OUTCOME_ORDER In]; tauto]).
  - discriminate.
Defined.

(** ** The trainer *)

Module Trainer.
Import Frames.

Ltac bind_ok H :=
  match type of H with
  | bind ?m _ = Ok _ =>
      let E := fresh "E" in
      destruct m eqn:E; cbn [bind] in H; [|discriminate H]
  end.

Section WithPandas.
Variable pd : Pandas.

(** One optional feature keeps the columns and feature names already there. *)
Lemma add_optional_feature_keeps (c : string) (df df' : DataFrame) (fc fc' : list string) :
  add_optional_feature pd c (df, fc) = Ok (df', fc') ->
  (forall k, has_col k df = true -> has_col k df' = true)
  /\ (forall k, In k fc -> In k fc').
Proof.
  unfold add_optional_feature. destruct (has_col c df) eqn:Hc.
  - rewrite (get_col_ok _ _ Hc). cbn [bind]. intros [= <- <-]. split.
    + intros k Hk. now apply has_col_set_keeps.
    + intros k Hk. apply in_or_app. now left.
  - intros [= <- <-]. split; auto.
Qed.

(** The features returned by [build_features] have one row per label and
    hold the "count_id" column. *)
Lemma build_features_shape (pas X : DataFrame) (y : Series) :
  build_features pd pas = Ok (X, y) ->
  List.length (rows X) = List.length y /\ In "count_id" (columns X).
Proof.
  unfold build_features. intros H.
  do 8 bind_ok H.
  cbn [foldM] in H.
  match type of H with
  | context [add_optional_feature _ "inning" ?st] =>
      destruct (add_optional_feature pd "inning" st) as [[df5 fc5]|] eqn:Ei;
      cbn [bind] in H; [|discriminate H]
  end.
  destruct (add_optional_feature pd "outs_when_up" (df5, fc5))
    as [[df6 fc6]|] eqn:Eo; cbn [bind] in H; [|discriminate H].
  destruct (get_col "outcome" df6) as [labels|] eqn:Ey; cbn [bind] in H; [|discriminate H].
  injection H as <- <-.
  apply get_col_inv in Ey as [_ ->].
  split; [cbn [project rows]; now rewrite length_map|].
  cbn [project columns]. apply filter_In.
  apply add_optional_feature_keeps in Ei as [Hc5 Hf5].
  apply add_optional_feature_keeps in Eo as [Hc6 Hf6].
  split.
  - apply Hf6, Hf5. now left.
  - apply Hc6, Hc5. apply has_col_set_keeps, has_col_set_same.
Qed.

End WithPandas.

Lemma mask_filter_same_length {A B : Type} (mask : list bool) (l : list A) (l' : list B) :
  List.length l = List.length l' ->
  List.length (mask_filter mask l) = List.length (mask_filter mask l').
Proof.
  revert l l'; induction mask as [|b m IH]; intros [|a t] [|a' t'] H;
    simpl in *; try discriminate; try reflexivity.
  injection H as H. destruct b; simpl; auto.
Qed.

Lemma kept_labels_valid (y : Series) :
  Forall valid_label (mask_filter (map (isin OUTCOME_ORDER) y) y).
Proof.
  rewrite mask_filter_map. apply Forall_forall. intros v Hv.
  apply filter_In in Hv as [_ Hv].
  destruct v as [| | | |s]; try discriminate Hv.
  exists s; split; [reflexivity|].
  unfold isin, mem in Hv. apply existsb_exists in Hv as (k & Hk & E).
  apply String.eqb_eq in E. now subst k.
Qed.

Lemma isin_valid_label (v : cell) : isin OUTCOME_ORDER v = true <-> valid_label v.
Proof.
  split.
  - destruct v as [| | | |s]; try discriminate. intros Hv.
    exists s; split; [reflexivity|].
    unfold isin, mem in Hv. apply existsb_exists in Hv as (k & Hk & E).
    apply String.eqb_eq in E. now subst k.
  - intros (s & -> & Hs). unfold isin, mem. apply existsb_exists.
    exists s. split; [exact Hs | apply String.eqb_refl].
Qed.

(** A mask computed from the labels keeps the pairs of a row and its label
    that the labels alone select. *)
Lemma mask_filter_paired {A B : Type} (p : B -> bool) (l : list A) (y : list B) :
  List.length l = List.length y ->
  mask_filter (map p y) l = map fst (filter (fun xy => p (snd xy)) (combine l y))
  /\ mask_filter (map p y) y = map snd (filter (fun xy => p (snd xy)) (combine l y)).
Proof.
  revert l. induction y as [|b t IH]; intros [|a l] H; try discriminate H.
  - split; reflexivity.
  - injection H as H. destruct (IH l H) as [Ex Ey].
    cbn [map mask_filter combine filter snd]. destruct (p b); cbn [map fst snd];
      split; congruence.
Qed.

(** An exception of [build_features] is the exception of [train_model]. *)
Lemma train_model_propagates (pd : Pandas) (trained : Type)
    (fit_and_score : DataFrame -> Series -> Q -> Z -> result trained)
    (pas : DataFrame) (test_size : Q) (random_state : Z) (e : exn) :
  build_features pd pas = Raise e ->
  train_model pd trained fit_and_score pas test_size random_state = Raise e.
Proof. intros H. unfold train_model. now rewrite H. Qed.

Example unlabeled_frame_is_refused :
  train_model plain_pandas _ echo_fit unlabeled_frame (2 # 10) 42
  = Raise (ValueError no_valid_rows).
Proof. reflexivity. Qed.

Example mixed_frame_keeps_the_walk :
  match train_model plain_pandas _ echo_fit mixed_frame (2 # 10) 42 with
  | Ok (X, y) => y = [CStr "Walk"] /\ map (row_get "count_id") (rows X) = [CInt 13]
  | Raise _ => False
  end.
Proof. split; reflexivity. Qed.

End Trainer.

(** C6: once [build_features] has returned features [X] and labels [y], one
    label for each feature row, [train_model] keeps exactly the pairs of a
    feature row and its label whose label is one of the eight categories,
    in their order, and drops the others, feature row and label alike; if no
    pair is left it raises the ValueError "No valid rows ..." instead of
    fitting; otherwise the split and the fit receive the kept feature rows,
    under the columns of [X], and the kept labels. *)
Theorem train_model_needs_valid_rows
    (pd : Pandas) (trained : Type)
    (fit_and_score : DataFrame -> Series -> Q -> Z -> result trained)
    (pas : DataFrame) (test_size : Q) (random_state : Z)
    (X : DataFrame) (y : Series) :
  build_features pd pas = Ok (X, y) ->
  let valid := map (isin OUTCOME_ORDER) y in
  let kept := filter (fun xy => isin OUTCOME_ORDER (snd xy)) (combine (rows X) y) in
  List.length (rows X) = List.length y
  /\ (forall x v, In (x, v) kept <-> In (x, v) (combine (rows X) y) /\ valid_label v)
  /\ select_rows valid X = {| columns := columns X; rows := map fst kept |}
  /\ mask_filter valid y = map snd kept
  /\ Forall valid_label (mask_filter valid y)
  /\ (kept = [] ->
      train_model pd trained fit_and_score pas test_size random_state
      = Raise (ValueError no_valid_rows))
  /\ (kept <> [] ->
      train_model pd trained fit_and_score pas test_size random_state
      = fit_and_score {| columns := columns X; rows := map fst kept |} (map snd kept)
          test_size random_state).
Proof.
  intros Hb valid kept.
  destruct (Trainer.build_features_shape _ _ _ _ Hb) as [Hlen Hcol].
  destruct (Trainer.mask_filter_paired (isin OUTCOME_ORDER) _ _ Hlen) as [Ex Ey].
  fold valid kept in Ex, Ey.
  assert (Es : select_rows valid X = {| columns := columns X; rows := map fst kept |}).
  { unfold select_rows. now rewrite Ex. }
  split; [exact Hlen|]. split.
  { intros x v. unfold kept. rewrite filter_In. cbn [snd].
    now rewrite Trainer.isin_valid_label. }
  split; [exact Es|]. split; [exact Ey|].
  split; [apply Trainer.kept_labels_valid|].
  unfold train_model. rewrite Hb. cbn [bind]. fold valid. rewrite Es, Ey.
  split; intros Hk.
  - rewrite Hk. reflexivity.
  - destruct kept as [|[x v] t]; [contradiction|].
    unfold df_empty. cbn [rows columns map].
    destruct (columns X); [contradiction|]. reflexivity.
Qed.

Lemma train_model_needs_valid_rows_witness :
  train_model plain_pandas _ echo_fit unlabeled_frame (2 # 10) 42
  = Raise (ValueError no_valid_rows)
  /\ train_model plain_pandas _ echo_fit mixed_frame (2 # 10) 42
     = Ok ({| columns := ["count_id"; "platoon_same"];
              rows := [ [("outcome", CStr "Walk"); ("balls", CInt 3); ("strikes", CInt 1);
                         ("stand", CStr "L"); ("p_throws", CStr "R");
                         ("count_id", CInt 13); ("platoon_same", CInt 0)] ] |},
           [CStr "Walk"]).
Proof.
  split.
  - pose proof (train_model_needs_valid_rows plain_pandas _ echo_fit unlabeled_frame
                  (2 # 10) 42 unlabeled_features unlabeled_labels eq_refl) as H.
    cbv zeta in H. destruct H as (_ & _ & _ & _ & _ & H & _).
    apply H. reflexivity.
  - pose proof (train_model_needs_valid_rows plain_pandas _ echo_fit mixed_frame
                  (2 # 10) 42 mixed_features mixed_labels eq_refl) as H.
    cbv zeta in H. destruct H as (_ & _ & _ & _ & _ & _ & H).
    rewrite H; [reflexivity | discriminate].
Defined.

(** ** The dataset loader *)

Module Loader.
Import Frames.

Lemma mapM_inv {A B : Type} (f : A -> result B) (l : list A) (l' : list B) :
  mapM f l = Ok l' -> Forall2 (fun a b => f a = Ok b) l l'.
Proof.
  revert l'; induction l as [|a t IH]; simpl; intros l' H.
  - injection H as <-. constructor.
  - destruct (f a) eqn:Ea; cbn [bind] in H; [|discriminate].
    destruct (mapM f t) eqn:Et; cbn [bind] in H; [|discriminate].
    injection H as <-. constructor; auto.
Qed.

Lemma mapM_ok {A B : Type} (f : A -> result B) (l : list A) :
  Forall (fun a => exists b, f a = Ok b) l -> exists l', mapM f l = Ok l'.
Proof.
  induction 1 as [|a t [b Hb] _ [l' IH]]; simpl.
  - now exists [].
  - rewrite Hb, IH. cbn [bind]. now eexists.
Qed.

Lemma mapM_map {A B C : Type} (f : A -> result B) (g : B -> C) (l : list A) :
  mapM (fun a => b <- f a ;; Ok (g b)) l = (l' <- mapM f l ;; Ok (map g l')).
Proof.
  induction l as [|a t IH]; simpl; [reflexivity|].
  destruct (f a); cbn [bind]; [|reflexivity].
  rewrite IH. destruct (mapM f t); reflexivity.
Qed.

Lemma Forall2_compose {A B C : Type} (R : A -> B -> Prop) (S : B -> C -> Prop)
    (l1 : list A) (l2 : list B) (l3 : list C) :
  Forall2 R l1 l2 -> Forall2 S l2 l3 ->
  Forall2 (fun a c => exists b, R a b /\ S b c) l1 l3.
Proof.
  intros H; revert l3; induction H; intros l3 H3; inversion H3; subst; constructor; eauto.
Qed.

(** Rows of the frame after [df[dst] = values'], row by row. *)
Lemma set_col_rows (g : cell -> result cell) (src dst : string) (rs : list Row)
    (values' : Series) :
  mapM g (map (row_get src) rs) = Ok values' ->
  Forall2 (fun r r' => exists v, g (row_get src r) = Ok v /\ r' = dict_set dst v r)
          rs (map2 (fun r v => dict_set dst v r) rs values').
Proof.
  revert values'; induction rs as [|r t IH]; simpl; intros values' H.
  - constructor.
  - destruct (g (row_get src r)) eqn:Er; cbn [bind] in H; [|discriminate].
    destruct (mapM g (map (row_get src) t)) eqn:Et; cbn [bind] in H; [|discriminate].
    injection H as <-. simpl. constructor; eauto.
Qed.

Lemma rewrite_col_inv (g : cell -> result cell) (src dst : string) (df df' : DataFrame) :
  rewrite_col g src dst df = Ok df' ->
  has_col src df = true
  /\ columns df' = (if has_col dst df then columns df else columns df ++ [dst])
  /\ Forall2 (fun r r' => exists v, g (row_get src r) = Ok v /\ r' = dict_set dst v r)
             (rows df) (rows df').
Proof.
  unfold rewrite_col. intros H.
  destruct (get_col src df) as [values|] eqn:Eg; cbn [bind] in H; [|discriminate].
  apply get_col_inv in Eg as [Hs ->].
  destruct (mapM g (map (row_get src) (rows df))) as [values'|] eqn:Em;
    cbn [bind] in H; [|discriminate].
  injection H as <-. split; [exact Hs|]. split; [reflexivity|].
  cbn [set_col rows]. now apply set_col_rows.
Qed.

Lemma rewrite_col_ok (g : cell -> result cell) (src dst : string) (df : DataFrame) :
  has_col src df = true ->
  Forall (fun r => exists v, g (row_get src r) = Ok v) (rows df) ->
  exists df', rewrite_col g src dst df = Ok df'.
Proof.
  intros Hs Hall. unfold rewrite_col. rewrite (get_col_ok _ _ Hs). cbn [bind].
  destruct (mapM_ok g (map (row_get src) (rows df))) as [values' Hv].
  { apply Forall_map. exact Hall. }
  rewrite Hv. cbn [bind]. now eexists.
Qed.

Lemma map_events_as_rewrite (pas : DataFrame) :
  map_events_to_outcomes pas = rewrite_col event_cell_to_outcome "events" "outcome" pas.
Proof. reflexivity. Qed.

Section WithPandas.
Variable pd : Pandas.

Lemma coerce_count_as_rewrite (col : string) (pas : DataFrame) :
  coerce_count_col pd col pas
  = if has_col col pas
    then rewrite_col (int_cell pd (int64_cast pd (column col pas))) col col pas
    else Ok pas.
Proof.
  unfold coerce_count_col, rewrite_col, coerce_int, int_cell, get_col, column.
  destruct (has_col col pas); [|reflexivity]. cbn [bind].
  rewrite mapM_map.
  destruct (mapM (coerce_int_cell pd (int64_cast pd (map (row_get col) (rows pas))))
                 (map (row_get col) (rows pas))); reflexivity.
Qed.

Lemma wrap64_int64 (z : Z) : int64 (wrap64 z).
Proof.
  unfold int64, wrap64.
  pose proof (Z.mod_pos_bound (z + 2 ^ 63) (2 ^ 64) eq_refl). lia.
Qed.

Lemma held_exactly_int64 (n : num) : held_exactly n = true -> int64 (truncate n).
Proof.
  unfold int64. destruct n as [k|q|b]; cbn [held_exactly truncate]; intros H.
  - apply Z.leb_le in H. assert (2 ^ 53 < 2 ^ 63)%Z by reflexivity. lia.
  - apply Z.ltb_lt in H. lia.
  - discriminate.
Qed.

Lemma astype_int_int64 (cast : num -> Z) (n : num) (z : Z) :
  astype_int cast n = Ok z -> int64 z.
Proof.
  unfold astype_int. destruct (held_exactly n) eqn:Hh.
  - destruct n; intros [= <-]; exact (held_exactly_int64 _ Hh).
  - destruct n; intros [= <-]; apply wrap64_int64.
Qed.

Lemma astype_int_exact (cast : num -> Z) (n : num) (z : Z) :
  astype_int cast n = Ok z -> held_exactly n = true -> z = truncate n.
Proof.
  unfold astype_int. intros H Hh.
  destruct n; [| |discriminate Hh]; rewrite Hh in H; now injection H as <-.
Qed.

Lemma truncate_nonneg (n : num) : num_nonneg n -> (0 <= truncate n)%Z.
Proof.
  destruct n as [k|q|b]; cbn; intros H.
  - exact H.
  - apply Z.quot_pos; [|lia]. unfold Qle in H; cbn in H. lia.
  - lia.
Qed.

Lemma count_loaded_intro (cast : num -> Z) (v : cell) (z : Z) :
  coerce_int_cell pd cast v = Ok z -> count_loaded pd cast v (CInt z).
Proof.
  intros H. exists z. split; [reflexivity|]. split; [exact H|].
  unfold coerce_int_cell in H. split; [exact (astype_int_int64 _ _ _ H)|]. split.
  - intros Hn. rewrite Hn in H. now injection H as <-.
  - intros n Hn Hh. rewrite Hn in H. cbn [fillna0] in H.
    pose proof (astype_int_exact _ _ _ H Hh) as ->.
    split; [reflexivity | apply truncate_nonneg].
Qed.

Lemma coerce_int_cell_ok (cast : num -> Z) (v : cell) :
  (forall b, to_numeric pd v <> Some (NInf b)) ->
  exists z, coerce_int_cell pd cast v = Ok z.
Proof.
  intros H. unfold coerce_int_cell.
  destruct (to_numeric pd v) as [[k|q|b]|]; cbn; eauto.
  now destruct (H b).
Qed.

Lemma column_same (c : string) (l l' : list Row) :
  Forall2 (fun r r' => row_get c r' = row_get c r) l l' ->
  map (row_get c) l' = map (row_get c) l.
Proof. induction 1; cbn; congruence. Qed.

Lemma mem_snoc_other (k k' : string) (l : list string) :
  k <> k' -> mem k (l ++ [k']) = mem k l.
Proof.
  intros Hne. unfold mem. rewrite existsb_app. simpl.
  destruct (k =? k') eqn:E; [apply String.eqb_eq in E; contradiction|].
  now rewrite !orb_false_r.
Qed.

Lemma Forall2_same {A : Type} (l : list A) : Forall2 (fun a b => b = a) l l.
Proof. induction l; constructor; auto. Qed.

(** One turn of the loop over the count columns, row by row. *)
Lemma coerce_count_col_inv (col : string) (p p' : DataFrame) :
  coerce_count_col pd col p = Ok p' ->
  columns p' = columns p
  /\ Forall2 (fun r r' =>
                if has_col col p
                then exists z, coerce_int_cell pd (int64_cast pd (column col p))
                                 (row_get col r) = Ok z
                               /\ r' = dict_set col (CInt z) r
                else r' = r)
             (rows p) (rows p').
Proof.
  rewrite coerce_count_as_rewrite. destruct (has_col col p) eqn:Hc.
  - intros H. apply rewrite_col_inv in H as (_ & Hcols & Hrows).
    rewrite Hc in Hcols. split; [exact Hcols|].
    eapply Forall2_impl; [|exact Hrows].
    intros r r' (v & Hv & ->). unfold int_cell in Hv.
    destruct (coerce_int_cell pd (int64_cast pd (column col p)) (row_get col r))
      as [z|] eqn:Ez; cbn [bind] in Hv; [|discriminate].
    injection Hv as <-. now exists z.
  - intros [= <-]. split; [reflexivity | apply Forall2_same].
Qed.

Lemma label_and_coerce_inv (pas ds : DataFrame) :
  label_and_coerce pd pas = Ok ds ->
  (forall col, col <> "outcome" -> has_col col ds = has_col col pas)
  /\ Forall2 (fun raw out =>
                forall col, In col ["balls"; "strikes"] -> has_col col pas = true ->
                            count_loaded pd (int64_cast pd (column col pas))
                              (row_get col raw) (row_get col out))
             (rows pas) (rows ds).
Proof.
  unfold label_and_coerce. intros H.
  destruct (map_events_to_outcomes pas) as [p1|] eqn:E1; cbn [bind foldM] in H; [|discriminate].
  destruct (coerce_count_col pd "balls" p1) as [p2|] eqn:E2;
    cbn [bind] in H; [|discriminate].
  destruct (coerce_count_col pd "strikes" p2) as [p3|] eqn:E3;
    cbn [bind] in H; [|discriminate].
  injection H as <-.
  rewrite map_events_as_rewrite in E1.
  apply rewrite_col_inv in E1 as (_ & C1 & R1).
  apply coerce_count_col_inv in E2 as (C2 & R2).
  apply coerce_count_col_inv in E3 as (C3 & R3).
  assert (Hcols : forall col, col <> "outcome" -> has_col col p1 = has_col col pas).
  { intros col Hne. unfold has_col. rewrite C1.
    destruct (has_col "outcome" pas); [reflexivity | now apply mem_snoc_other]. }
  assert (Hc2 : forall col, has_col col p2 = has_col col p1).
  { intros col. unfold has_col. now rewrite C2. }
  split.
  { intros col Hne. unfold has_col at 1. rewrite C3. fold (has_col col p2).
    now rewrite Hc2, Hcols. }
  assert (K1 : forall col, col <> "outcome" -> column col p1 = column col pas).
  { intros col Hne. apply column_same. eapply Forall2_impl; [|exact R1].
    intros r r' (o & _ & ->). now apply row_get_set_other. }
  assert (K2 : column "strikes" p2 = column "strikes" p1).
  { apply column_same. eapply Forall2_impl; [|exact R2].
    intros r r' Hr. destruct (has_col "balls" p1).
    - destruct Hr as (z & _ & ->). now apply row_get_set_other.
    - now subst r'. }
  rewrite K1 in R2 by discriminate. rewrite K2, K1 in R3 by discriminate.
  pose proof (Forall2_compose _ _ _ _ _ (Forall2_compose _ _ _ _ _ R1 R2) R3) as R.
  eapply Forall2_impl; [|exact R].
  intros raw out (r2 & (r1 & (o & _ & ->) & H2) & H3) col Hin Hhas.
  rewrite Hc2 in H3.
  destruct Hin as [<- | [<- | []]].
  - rewrite Hcols, Hhas in H2 by discriminate.
    destruct H2 as (zb & Hzb & ->).
    rewrite row_get_set_other in Hzb by discriminate.
    assert (Hout : row_get "balls" out = CInt zb).
    { destruct (has_col "strikes" p1).
      - destruct H3 as (zs & _ & ->).
        rewrite row_get_set_other by discriminate. apply row_get_set_same.
      - subst out. apply row_get_set_same. }
    rewrite Hout. now apply count_loaded_intro.
  - rewrite Hcols, Hhas in H3 by discriminate.
    destruct H3 as (zs & Hzs & ->).
    rewrite row_get_set_same.
    apply count_loaded_intro.
    assert (Hsame : row_get "strikes" r2 = row_get "strikes" raw).
    { destruct (has_col "balls" p1).
      - destruct H2 as (zb & _ & ->).
        now rewrite !row_get_set_other by discriminate.
      - subst r2. now rewrite row_get_set_other by discriminate. }
    now rewrite <- Hsame.
Qed.

Lemma Forall2_Forall {A B : Type} (P : A -> Prop) (Q : B -> Prop) (R : A -> B -> Prop)
    (l : list A) (l' : list B) :
  (forall a b, P a -> R a b -> Q b) ->
  Forall P l -> Forall2 R l l' -> Forall Q l'.
Proof.
  intros HPQ HP HR. induction HR; inversion HP; subst; constructor; eauto.
Qed.

Lemma Forall2_In_r {A B : Type} (R : A -> B -> Prop) (l : list A) (l' : list B) (b : B) :
  Forall2 R l l' -> In b l' -> exists a, In a l /\ R a b.
Proof.
  induction 1 as [|a0 b0 t t' H0 _ IH]; simpl; [contradiction|].
  intros [<- | Hin]; [eauto|].
  destruct (IH Hin) as (a & Ha & HR). eauto.
Qed.

Lemma event_cell_ok (v : cell) :
  is_text v -> exists o, event_cell_to_outcome v = Ok o.
Proof. intros [-> | [s ->]]; cbn; eauto. Qed.

Lemma int_cell_ok (cast : num -> Z) (v : cell) :
  reads_finite pd v -> exists c, int_cell pd cast v = Ok c.
Proof.
  intros H. destruct (coerce_int_cell_ok cast v H) as [z Hz].
  unfold int_cell. rewrite Hz. cbn. eauto.
Qed.

(** One turn of the count loop succeeds when the column reads finite. *)
Lemma coerce_count_col_ok (col : string) (p : DataFrame) :
  Forall (fun r => reads_finite pd (row_get col r)) (rows p) ->
  exists p', coerce_count_col pd col p = Ok p'.
Proof.
  intros H. rewrite coerce_count_as_rewrite.
  destruct (has_col col p) eqn:Hc; [|eauto].
  apply rewrite_col_ok; [exact Hc|].
  eapply Forall_impl; [|exact H]. intros r. apply int_cell_ok.
Qed.

(** Labelling and coercion go through when the events are strings and no
    count reads as an infinite number: strings that are no numbers and
    missing counts do not stop them. *)
Lemma label_and_coerce_ok (pas : DataFrame) :
  has_col "events" pas = true ->
  Forall (fun r => is_text (row_get "events" r)) (rows pas) ->
  Forall (fun r => reads_finite pd (row_get "balls" r)
                   /\ reads_finite pd (row_get "strikes" r)) (rows pas) ->
  exists ds, label_and_coerce pd pas = Ok ds.
Proof.
  intros He Hev Hfin. unfold label_and_coerce.
  rewrite map_events_as_rewrite.
  destruct (rewrite_col_ok event_cell_to_outcome "events" "outcome" pas He) as [p1 E1].
  { eapply Forall_impl; [|exact Hev]. intros r. apply event_cell_ok. }
  rewrite E1. cbn [bind foldM].
  apply rewrite_col_inv in E1 as (_ & _ & R1).
  assert (F1 : Forall (fun r => reads_finite pd (row_get "balls" r)
                                /\ reads_finite pd (row_get "strikes" r))
                      (rows p1)).
  { eapply Forall2_Forall; [|exact Hfin|exact R1].
    intros raw r1 Hraw (o & _ & ->).
    now rewrite !row_get_set_other by discriminate. }
  destruct (coerce_count_col_ok "balls" p1) as [p2 E2].
  { eapply Forall_impl; [|exact F1]. intros r [Hb _]. exact Hb. }
  rewrite E2. cbn [bind].
  apply coerce_count_col_inv in E2 as (_ & R2).
  destruct (coerce_count_col_ok "strikes" p2) as [p3 E3].
  { eapply Forall2_Forall; [|exact F1|exact R2].
    intros r1 r2 [_ Hs] H2. cbn beta in H2.
    destruct (has_col "balls" p1).
    - destruct H2 as (z & _ & ->). now rewrite row_get_set_other by discriminate.
    - now subst r2. }
  rewrite E3. cbn [bind]. eauto.
Qed.

End WithPandas.

Section WithSource.
Variable statcast : string -> string -> option DataFrame.

(** A frame fetched with at least one row and one column has an "events"
    column, populated in every row. *)
Lemma fetch_inv (start_dt end_dt : string) (pas : DataFrame) :
  fetch_statcast_pas statcast start_dt end_dt = Ok pas ->
  df_empty pas = false ->
  has_col "events" pas = true
  /\ Forall (fun r => notna (row_get "events" r) = true) (rows pas).
Proof.
  unfold fetch_statcast_pas.
  destruct (statcast start_dt end_dt) as [raw|]; [|intros [= <-]; discriminate].
  destruct (df_empty raw); [intros [= <-]; discriminate|].
  destruct (get_col "events" raw) as [events|] eqn:Eg; cbn [bind]; [|discriminate].
  apply get_col_inv in Eg as [He ->]. intros [= <-] _.
  split; [exact He|]. cbn [select_rows rows].
  rewrite mask_filter_map2. apply Forall_forall. intros r Hr.
  apply filter_In in Hr. tauto.
Qed.

Variable pd : Pandas.

Lemma load_as_label_and_coerce (start_dt end_dt : string) (pas : DataFrame) :
  fetch_statcast_pas statcast start_dt end_dt = Ok pas ->
  load_pa_dataset statcast pd start_dt end_dt
  = if df_empty pas then Ok pas else label_and_coerce pd pas.
Proof. intros H. unfold load_pa_dataset. rewrite H. reflexivity. Qed.

End WithSource.

(** Counts numpy does not hold exactly go through the cast of their column:
    with the cast of [plain_pandas], 2^63 and 2.0^70 come out as -2^63, next
    to a 3.7 that is truncated to 3. *)
Example huge_counts_are_cast :
  coerce_int plain_pandas [CInt (2 ^ 63); CFloat (inject_Z (2 ^ 70)); CFloat (37 # 10)]
  = Ok [(- 2 ^ 63)%Z; (- 2 ^ 63)%Z; 3%Z].
Proof. reflexivity. Qed.

End Loader.

(** C7 (as the code has it): in every dataset [load_pa_dataset] returns, the
    ball and strike fields are int64 integers; a field is zero when the
    fetched value is missing or is no number; when the fetched value reads as
    a number numpy holds exactly (an integer of magnitude up to 2^53, a
    float whose integer part is of magnitude below 2^63), the field is that
    number truncated towards zero, so it is not negative when the fetched
    number is not negative (any other number comes out as the int64 the cast
    of its column makes of it); and the loader returns a dataset whenever
    the events are strings and no count reads as an infinite number, so a
    count that is no number does not make it fail. *)
Theorem loaded_counts_are_integers
    (statcast : string -> string -> option DataFrame)
    (pd : Pandas) (start_dt end_dt : string) :
  (forall ds col r,
      load_pa_dataset statcast pd start_dt end_dt = Ok ds ->
      In col ["balls"; "strikes"] -> has_col col ds = true -> In r (rows ds) ->
      exists z, row_get col r = CInt z)
  /\ (forall pas ds,
         fetch_statcast_pas statcast start_dt end_dt = Ok pas ->
         df_empty pas = false ->
         load_pa_dataset statcast pd start_dt end_dt = Ok ds ->
         Forall2 (fun fetched loaded =>
                    forall col, In col ["balls"; "strikes"] -> has_col col pas = true ->
                                count_loaded pd (int64_cast pd (column col pas))
                                  (row_get col fetched) (row_get col loaded))
                 (rows pas) (rows ds))
  /\ (forall pas,
         fetch_statcast_pas statcast start_dt end_dt = Ok pas ->
         Forall (fun r => is_text (row_get "events" r)) (rows pas) ->
         Forall (fun r => reads_finite pd (row_get "balls" r)
                          /\ reads_finite pd (row_get "strikes" r)) (rows pas) ->
         exists ds, load_pa_dataset statcast pd start_dt end_dt = Ok ds).
Proof.
  split; [|split].
  - intros ds col r Hload Hcol Hhas Hr.
    destruct (fetch_statcast_pas statcast start_dt end_dt) as [pas|] eqn:Ef.
    2:{ unfold load_pa_dataset in Hload. rewrite Ef in Hload. discriminate. }
    rewrite (Loader.load_as_label_and_coerce _ _ _ _ _ Ef) in Hload.
    destruct (df_empty pas) eqn:Hempty.
    + injection Hload as <-. unfold df_empty in Hempty. unfold has_col in Hhas.
      destruct (rows pas); [contradiction|].
      destruct (columns pas); discriminate.
    + apply Loader.label_and_coerce_inv in Hload as (Hcols & Hrows).
      destruct (Loader.Forall2_In_r _ _ _ _ Hrows Hr) as (raw & _ & Hrel).
      assert (Hne : col <> "outcome").
      { destruct Hcol as [<- | [<- | []]]; discriminate. }
      rewrite (Hcols col Hne) in Hhas.
      destruct (Hrel col Hcol Hhas) as (z & Hz & _). eauto.
  - intros pas ds Hf Hempty Hload.
    rewrite (Loader.load_as_label_and_coerce _ _ _ _ _ Hf), Hempty in Hload.
    now apply Loader.label_and_coerce_inv in Hload.
  - intros pas Hf Hev Hfin.
    rewrite (Loader.load_as_label_and_coerce _ _ _ _ _ Hf).
    destruct (df_empty pas) eqn:Hempty; [eauto|].
    pose proof (Loader.fetch_inv statcast start_dt end_dt pas Hf Hempty) as [He _].
    now apply Loader.label_and_coerce_ok.
Qed.

(** C7, as stated, fails: a fetched ball count of -1 is loaded as -1, which
    is negative (the strike count "n/a" is loaded as 0). *)
Lemma negative_count_is_kept :
  (ds <- load_pa_dataset (fun _ _ => Some negative_count_source) plain_pandas
           "2024-04-01" "2024-04-02" ;;
   balls <- get_col "balls" ds ;;
   strikes <- get_col "strikes" ds ;;
   Ok (balls, strikes))
  = Ok ([CInt (-1)], [CInt 0])
  /\ (-1 < 0)%Z.
Proof. split; reflexivity. Qed.

(** ** Labels produced by the classifier *)

Module Labels.
Import Frames.

Lemma classifier_label_valid (event : option string) :
  valid_label (CStr (_event_to_outcome event)).
Proof.
  exists (_event_to_outcome event). split; [reflexivity|].
  destruct event as [s|].
  - rewrite Classifier.unfold_classifier. apply Classifier.first_match_in_order.
  - cbv [_event_to_outcome OUTCOME_ORDER In]. tauto.
Qed.

(** A frame labeled by [map_events_to_outcomes] is [labeled]. *)
Lemma map_events_to_outcomes_labeled (pas pas' : DataFrame) :
  map_events_to_outcomes pas = Ok pas' -> labeled pas'.
Proof.
  intros H. pose proof H as H'. rewrite Loader.map_events_as_rewrite in H'.
  apply Loader.rewrite_col_inv in H' as (_ & _ & R).
  split.
  - unfold map_events_to_outcomes in H.
    destruct (get_col "events" pas); cbn [bind] in H; [|discriminate].
    destruct (mapM event_cell_to_outcome a); cbn [bind] in H; [|discriminate].
    injection H as <-. apply has_col_set_same.
  - eapply Loader.Forall2_Forall with (P := fun _ => True); [|
      apply Forall_forall; intros; exact I | exact R].
    intros r r' _ (o & Ho & ->). cbn beta. rewrite row_get_set_same.
    destruct (row_get "events" r) as [| | | |s]; cbn [event_cell_to_outcome] in Ho;
      try discriminate; injection Ho as <-.
    + exact (classifier_label_valid None).
    + exact (classifier_label_valid (Some s)).
Qed.

End Labels.

(** * Further properties *)

(** ** The classifier, category by category *)

Module Substrings.
Import PyStr.

Lemma contains_empty (x : string) : solid_start x -> contains x EmptyString = false.
Proof. destruct x; simpl; [contradiction | reflexivity]. Qed.

Lemma contains_tail (x : string) (c : ascii) (t : string) :
  contains x t = true -> contains x (String c t) = true.
Proof. intros H. cbn [contains]. rewrite H. apply orb_true_r. Qed.

Lemma contains_lstrip (x s : string) :
  solid_start x -> contains x s = true -> contains x (lstrip s) = true.
Proof.
  intros Hx. induction s as [|c t IH]; [trivial|].
  cbn [lstrip]. destruct (isspace c) eqn:Ec; [|trivial].
  cbn [contains]. intros H. apply orb_true_iff in H as [H|H]; [|auto].
  destruct x as [|a x']; [contradiction|].
  unfold solid_start in Hx. cbn [String.prefix] in H.
  destruct (ascii_dec a c) as [->|]; [|discriminate H].
  rewrite Hx in Ec. discriminate Ec.
Qed.

Lemma prefix_cons (a : ascii) (x s : string) :
  String.prefix (String a x) (String a s) = String.prefix x s.
Proof. cbn [String.prefix]. destruct (ascii_dec a a); congruence. Qed.

Lemma prefix_rstrip (x : string) :
  solid_end x -> forall s, String.prefix x s = true -> String.prefix x (rstrip s) = true.
Proof.
  induction x as [|a x' IH]; [contradiction|].
  intros Hx [|c t]; [discriminate|]. cbn [String.prefix].
  destruct (ascii_dec a c) as [<-|]; [|discriminate]. intros Hp.
  cbn [rstrip]. destruct x' as [|a' x''].
  - cbn [solid_end] in Hx. destruct (rstrip t); [rewrite Hx|];
      rewrite prefix_cons; reflexivity.
  - specialize (IH Hx t Hp).
    destruct (rstrip t) as [|d r]; [discriminate IH|].
    now rewrite prefix_cons.
Qed.

Lemma contains_rstrip (x s : string) :
  solid_start x -> solid_end x -> contains x s = true -> contains x (rstrip s) = true.
Proof.
  intros Hs He. induction s as [|c t IH]; [trivial|].
  cbn [contains]. intros H. apply orb_true_iff in H as [H|H].
  - apply (prefix_rstrip x He) in H.
    destruct (rstrip (String c t)); cbn [contains]; rewrite H; reflexivity.
  - specialize (IH H). cbn [rstrip].
    destruct (rstrip t) as [|d r] eqn:Er.
    + now rewrite contains_empty in IH.
    + now apply contains_tail.
Qed.

(** Stripping a string keeps every token inside it that neither starts nor
    ends with whitespace. *)
Lemma contains_strip (x s : string) :
  solid_start x -> solid_end x -> contains x s = true -> contains x (strip s) = true.
Proof.
  intros Hs He H. unfold strip.
  apply contains_rstrip; auto. now apply contains_lstrip.
Qed.

Lemma prefix_lower (x s : string) :
  String.prefix x s = true -> String.prefix (lower x) (lower s) = true.
Proof.
  revert s; induction x as [|a x' IH]; intros [|c t]; cbn [String.prefix lower];
    try discriminate; trivial.
  destruct (ascii_dec a c) as [<-|]; [|discriminate]. intros H.
  destruct (ascii_dec (lower_char a) (lower_char a)); [auto | congruence].
Qed.

(** Lowercasing a string lowercases the tokens inside it. *)
Lemma contains_lower (x s : string) :
  contains x s = true -> contains (lower x) (lower s) = true.
Proof.
  induction s as [|c t IH]; cbn [contains lower]; intros H.
  - apply orb_true_iff in H as [H|H]; [|discriminate].
    apply prefix_lower in H. cbn [lower] in H. now rewrite H.
  - apply orb_true_iff in H as [H|H].
    + apply prefix_lower in H. cbn [lower] in H. now rewrite H.
    + rewrite (IH H). apply orb_true_r.
Qed.

End Substrings.

Module Categories.
Import PyStr.

Ltac to_key E := apply String.eqb_eq in E; subst.

Ltac closed_side :=
  intro; first [reflexivity | discriminate | (cbv in *; congruence)].

Ltac open_side :=
  intro; first [discriminate | (subst; cbv in *; congruence)].

(** The six hit and walk categories each have one normalized spelling. *)
Lemma exact_spellings (e : string) :
  (first_match spec_rules e = "Walk" <-> e = "walk")
  /\ (first_match spec_rules e = "HBP" <-> e = "hit_by_pitch")
  /\ (first_match spec_rules e = "Single" <-> e = "single")
  /\ (first_match spec_rules e = "Double" <-> e = "double")
  /\ (first_match spec_rules e = "Triple" <-> e = "triple")
  /\ (first_match spec_rules e = "HR" <-> e = "home_run").
Proof.
  cbn [spec_rules first_match rule_holds].
  destruct (e =? "walk") eqn:E1; [to_key E1; repeat apply conj; closed_side|].
  destruct (e =? "hit_by_pitch") eqn:E2; [to_key E2; repeat apply conj; closed_side|].
  destruct (e =? "single") eqn:E3; [to_key E3; repeat apply conj; closed_side|].
  destruct (contains "double_play" e) eqn:E4; [repeat apply conj; open_side|].
  destruct (e =? "double") eqn:E5; [to_key E5; repeat apply conj; closed_side|].
  destruct (contains "triple_play" e) eqn:E6; [repeat apply conj; open_side|].
  destruct (e =? "triple") eqn:E7; [to_key E7; repeat apply conj; closed_side|].
  destruct (e =? "home_run") eqn:E8; [to_key E8; repeat apply conj; closed_side|].
  destruct (contains "strikeout" e) eqn:E9; repeat apply conj; open_side.
Qed.

Ltac strike_side :=
  first [ (let H := fresh in intro H; discriminate H)
        | (intros (? & ? & ?); subst; cbv in *; congruence)
        | (intro; repeat apply conj; first [assumption | reflexivity]) ].

(** Strikeout needs "strikeout" inside and neither play token. *)
Lemma strikeout_spelling (e : string) :
  first_match spec_rules e = "Strikeout"
  <-> contains "strikeout" e = true
      /\ contains "double_play" e = false
      /\ contains "triple_play" e = false.
Proof.
  cbn [spec_rules first_match rule_holds].
  destruct (e =? "walk") eqn:E1; [to_key E1; apply conj; strike_side|].
  destruct (e =? "hit_by_pitch") eqn:E2; [to_key E2; apply conj; strike_side|].
  destruct (e =? "single") eqn:E3; [to_key E3; apply conj; strike_side|].
  destruct (contains "double_play" e) eqn:E4; [apply conj; strike_side|].
  destruct (e =? "double") eqn:E5; [to_key E5; apply conj; strike_side|].
  destruct (contains "triple_play" e) eqn:E6; [apply conj; strike_side|].
  destruct (e =? "triple") eqn:E7; [to_key E7; apply conj; strike_side|].
  destruct (e =? "home_run") eqn:E8; [to_key E8; apply conj; strike_side|].
  destruct (contains "strikeout" e) eqn:E9; apply conj; strike_side.
Qed.

(** A play token anywhere in the lowercased string is still there after
    stripping. *)
Lemma play_token_kept (x s : string) :
  solid_start x -> solid_end x ->
  contains x s = true \/ contains x (lower s) = true ->
  lower x = x ->
  contains x (normalize s) = true.
Proof.
  intros Hs He H Hx. unfold normalize. apply Substrings.contains_strip; auto.
  destruct H as [H|H]; [|exact H].
  rewrite <- Hx. now apply Substrings.contains_lower.
Qed.

End Categories.

(** Walk, HBP, Single, Double, Triple and HR are each returned for exactly
    one normalized spelling: "walk", "hit_by_pitch", "single", "double",
    "triple" and "home_run". *)
Theorem hit_categories_have_one_spelling (s : string) :
  (_event_to_outcome (Some s) = "Walk" <-> normalize s = "walk")
  /\ (_event_to_outcome (Some s) = "HBP" <-> normalize s = "hit_by_pitch")
  /\ (_event_to_outcome (Some s) = "Single" <-> normalize s = "single")
  /\ (_event_to_outcome (Some s) = "Double" <-> normalize s = "double")
  /\ (_event_to_outcome (Some s) = "Triple" <-> normalize s = "triple")
  /\ (_event_to_outcome (Some s) = "HR" <-> normalize s = "home_run").
Proof.
  rewrite Classifier.unfold_classifier. apply Categories.exact_spellings.
Qed.

(** Strikeout is returned exactly when the normalized string contains
    "strikeout" and contains neither "double_play" nor "triple_play". *)
Theorem strikeout_needs_no_play_token (s : string) :
  _event_to_outcome (Some s) = "Strikeout"
  <-> PyStr.contains "strikeout" (normalize s) = true
      /\ PyStr.contains "double_play" (normalize s) = false
      /\ PyStr.contains "triple_play" (normalize s) = false.
Proof.
  rewrite Classifier.unfold_classifier. apply Categories.strikeout_spelling.
Qed.

(** A string that contains "double_play" or "triple_play", as given or in any
    mix of upper and lower case, with any whitespace around it, is
    classified as Out. *)
Theorem play_tokens_give_out (s : string) :
  PyStr.contains "double_play" s = true
  \/ PyStr.contains "double_play" (PyStr.lower s) = true
  \/ PyStr.contains "triple_play" s = true
  \/ PyStr.contains "triple_play" (PyStr.lower s) = true ->
  _event_to_outcome (Some s) = "Out".
Proof.
  intros H. rewrite Classifier.unfold_classifier.
  assert (Hd : PyStr.contains "double_play" (normalize s) = true
               \/ PyStr.contains "triple_play" (normalize s) = true).
  { destruct H as [H | [H | [H | H]]]; [left | left | right | right];
      apply Categories.play_token_kept; try reflexivity; tauto. }
  destruct Hd; [now apply Classifier.double_play_wins | now apply Classifier.triple_play_wins].
Qed.

Lemma play_tokens_give_out_witness :
  _event_to_outcome (Some "  Grounded_Into_DOUBLE_Play ") = "Out".
Proof.
  apply (play_tokens_give_out "  Grounded_Into_DOUBLE_Play ").
  right; left; reflexivity.
Defined.

(** ** The rate aggregator on any frame *)

Module Tally.
Import Frames.

Local Open Scope Q_scope.

(** The eight counts add up to the number of labels among the eight. *)
Lemma counts_add_up_to_valid (labels : Series) :
  (count_outcome "Walk" labels + count_outcome "HBP" labels
   + count_outcome "Single" labels + count_outcome "Double" labels
   + count_outcome "Triple" labels + count_outcome "HR" labels
   + count_outcome "Strikeout" labels + count_outcome "Out" labels
   = List.length (filter (isin OUTCOME_ORDER) labels))%nat.
Proof.
  induction labels as [|v t IH]; [reflexivity|].
  unfold count_outcome in *.
  destruct v as [| | | |s]; try exact IH.
  cbn [filter cell_eq_str isin mem existsb OUTCOME_ORDER].
  destruct (s =? "Walk")%string eqn:E1; [apply String.eqb_eq in E1; subst s; cbn; lia|].
  destruct (s =? "HBP")%string eqn:E2; [apply String.eqb_eq in E2; subst s; cbn; lia|].
  destruct (s =? "Single")%string eqn:E3; [apply String.eqb_eq in E3; subst s; cbn; lia|].
  destruct (s =? "Double")%string eqn:E4; [apply String.eqb_eq in E4; subst s; cbn; lia|].
  destruct (s =? "Triple")%string eqn:E5; [apply String.eqb_eq in E5; subst s; cbn; lia|].
  destruct (s =? "HR")%string eqn:E6; [apply String.eqb_eq in E6; subst s; cbn; lia|].
  destruct (s =? "Strikeout")%string eqn:E7; [apply String.eqb_eq in E7; subst s; cbn; lia|].
  destruct (s =? "Out")%string eqn:E8; [apply String.eqb_eq in E8; subst s; cbn; lia|].
  cbn [orb]. exact IH.
Qed.

Lemma rate_table_keys (labels : Series) : map fst (rate_table labels) = OUTCOME_ORDER.
Proof. reflexivity. Qed.

Lemma rate_table_bounds (labels : Series) :
  Forall (fun kv => 0 <= snd kv <= 1) (rate_table labels).
Proof.
  unfold rate_table. apply Forall_map, Forall_forall. intros outcome _. cbn [snd].
  destruct (List.length labels) as [|n] eqn:Hn.
  - split; discriminate.
  - apply Rates.quotient_in_unit_interval. rewrite <- Hn. apply Rates.count_le_length.
Qed.

(** The frequencies add up to the share of labels among the eight. *)
Lemma rate_table_sum (labels : Series) (n : nat) :
  List.length labels = S n ->
  sum_rates (rate_table labels)
  == Z.of_nat (List.length (filter (isin OUTCOME_ORDER) labels)) # Pos.of_nat (S n).
Proof.
  intros Hn. unfold rate_table. rewrite Hn.
  cbn [sum_rates OUTCOME_ORDER map fold_right snd].
  rewrite Qplus_0_r. rewrite !Rates.same_den_plus.
  rewrite <- counts_add_up_to_valid.
  unfold Qeq; cbn [Qnum Qden]. lia.
Qed.

Lemma rate_table_sum_le (labels : Series) : sum_rates (rate_table labels) <= 1.
Proof.
  destruct (List.length labels) as [|n] eqn:Hn.
  - unfold rate_table. rewrite Hn. cbn. discriminate.
  - rewrite (rate_table_sum labels n Hn).
    unfold Qle; cbn [Qnum Qden].
    rewrite <- Pos.of_nat_succ, Zpos_P_of_succ_nat.
    pose proof (filter_length_le (isin OUTCOME_ORDER) labels). lia.
Qed.

Lemma rate_table_sum_one (labels : Series) :
  labels <> [] -> Forall valid_label labels -> sum_rates (rate_table labels) == 1.
Proof.
  intros Hne Hv. destruct labels as [|v t] eqn:El; [contradiction|]. rewrite <- El in *.
  assert (Hn : List.length labels = S (List.length t)) by now rewrite El.
  rewrite (rate_table_sum labels _ Hn).
  rewrite <- counts_add_up_to_valid, (Rates.counts_add_up labels Hv), Hn.
  unfold Qeq; cbn [Qnum Qden].
  rewrite <- Pos.of_nat_succ, Zpos_P_of_succ_nat. lia.
Qed.

(** The loop over [OUTCOME_ORDER] builds [rate_table]. *)
Lemma tally_loop (pas : DataFrame) :
  has_col "outcome" pas = true ->
  foldM (fun rates outcome =>
           r <- rate_of outcome pas (len pas) ;; Ok (dict_set outcome r rates))
        OUTCOME_ORDER []
  = Ok (rate_table (map (row_get "outcome") (rows pas))).
Proof.
  intros H. unfold rate_table, len. rewrite length_map.
  destruct (List.length (rows pas)) as [|n] eqn:Hn.
  - reflexivity.
  - rewrite <- Hn. unfold rate_of. rewrite Hn. rewrite (get_col_ok _ _ H). rewrite <- Hn.
    reflexivity.
Qed.

Lemma labeled_first_has_outcome (pas pas1 : DataFrame) :
  labeled_first pas = Ok pas1 ->
  has_col "outcome" pas1 = true
  /\ (forall c, c <> "outcome"%string -> has_col c pas1 = has_col c pas)
  /\ List.length (rows pas1) = List.length (rows pas).
Proof.
  unfold labeled_first. destruct (has_col "outcome" pas) eqn:Ho; cbn [negb].
  - intros [= <-]. auto.
  - intros H. rewrite Loader.map_events_as_rewrite in H.
    apply Loader.rewrite_col_inv in H as (_ & Hc & Hr).
    rewrite Ho in Hc. split; [|split].
    + unfold has_col, mem. rewrite Hc, existsb_app. cbn. apply orb_true_r.
    + intros c Hne. unfold has_col. rewrite Hc. now apply Loader.mem_snoc_other.
    + symmetry. eapply Forall2_length; eauto.
Qed.

(** What the aggregator returns, when it returns. *)
Lemma league_rates_table (pas : DataFrame) (platoon_filter : option string)
    (rates : list (string * Q)) :
  league_rates_from_data pas platoon_filter = Ok rates ->
  exists pas1,
    labeled_first pas = Ok pas1
    /\ (platoon_filter = None \/ has_col "platoon_matchup" pas1 = true)
    /\ rates = rate_table (map (row_get "outcome") (tally_rows platoon_filter pas1)).
Proof.
  unfold league_rates_from_data. fold (labeled_first pas).
  destruct (labeled_first pas) as [pas1|] eqn:E1; cbn [bind]; [|discriminate].
  intros H.
  destruct (labeled_first_has_outcome _ _ E1) as (Ho & _ & _).
  exists pas1. split; [reflexivity|].
  destruct platoon_filter as [wanted|]; cbn [tally_rows].
  - destruct (has_col "platoon_matchup" pas1) eqn:Hp; cbn [negb bind] in *; [|discriminate].
    rewrite (get_col_ok _ _ Hp) in H. cbn [bind] in H.
    rewrite tally_loop in H by exact Ho.
    injection H as <-. split; [now right|].
    unfold select_rows. cbn [rows]. now rewrite mask_filter_map2.
  - cbn [bind] in H. rewrite tally_loop in H by exact Ho.
    injection H as <-. split; [now left | reflexivity].
Qed.

End Tally.

(** Whatever the labels are, a table the aggregator returns has the eight
    categories as its keys, in the order of [OUTCOME_ORDER]. Behind it are
    the labels of the tallied rows: every frequency is the quotient of a
    count by the number of labels, the count being at most that number, so
    the frequency lies in [0, 1]; and the eight counts add up to the number
    of labels among the eight categories, which is at most the number of
    labels: rows whose label is none of the eight count in the denominator
    only. The bound on the sum is one on the counts, not on the sum of the
    rounded quotients. *)
Theorem returned_rates_are_bounded
    (pas : DataFrame) (platoon_filter : option string) (rates : list (string * Q)) :
  league_rates_from_data pas platoon_filter = Ok rates ->
  exists pas1,
    labeled_first pas = Ok pas1
    /\ let labels := map (row_get "outcome") (tally_rows platoon_filter pas1) in
       rates = rate_table labels
       /\ map fst rates = OUTCOME_ORDER
       /\ Forall (fun kv => (0 <= snd kv <= 1)%Q) rates
       /\ Forall (fun outcome => (count_outcome outcome labels <= List.length labels)%nat)
                 OUTCOME_ORDER
       /\ list_sum (map (fun outcome => count_outcome outcome labels) OUTCOME_ORDER)
          = List.length (filter (isin OUTCOME_ORDER) labels)
       /\ (list_sum (map (fun outcome => count_outcome outcome labels) OUTCOME_ORDER)
           <= List.length labels)%nat.
Proof.
  intros H. apply Tally.league_rates_table in H as (pas1 & H1 & _ & ->).
  exists pas1. split; [exact H1|]. intros labels.
  assert (Hsum : list_sum (map (fun outcome => count_outcome outcome labels) OUTCOME_ORDER)
                 = List.length (filter (isin OUTCOME_ORDER) labels)).
  { rewrite <- Tally.counts_add_up_to_valid. cbn [OUTCOME_ORDER map list_sum fold_right]. lia. }
  split; [reflexivity|].
  split; [apply Tally.rate_table_keys|].
  split; [apply Tally.rate_table_bounds|].
  split; [apply Forall_forall; intros outcome _; apply Rates.count_le_length|].
  split; [exact Hsum|].
  rewrite Hsum. apply filter_length_le.
Qed.

Lemma returned_rates_are_bounded_witness :
  exists pas1,
    labeled_first mixed_frame = Ok pas1
    /\ let labels := map (row_get "outcome") (tally_rows None pas1) in
       rate_table [CStr "Walk"; CStr "Foul"; CNa] = rate_table labels
       /\ map fst (rate_table [CStr "Walk"; CStr "Foul"; CNa]) = OUTCOME_ORDER
       /\ Forall (fun kv => (0 <= snd kv <= 1)%Q) (rate_table [CStr "Walk"; CStr "Foul"; CNa])
       /\ Forall (fun outcome => (count_outcome outcome labels <= List.length labels)%nat)
                 OUTCOME_ORDER
       /\ list_sum (map (fun outcome => count_outcome outcome labels) OUTCOME_ORDER)
          = List.length (filter (isin OUTCOME_ORDER) labels)
       /\ (list_sum (map (fun outcome => count_outcome outcome labels) OUTCOME_ORDER)
           <= List.length labels)%nat.
Proof.
  apply (returned_rates_are_bounded mixed_frame None).
  reflexivity.
Defined.

(** A call with a platoon filter returns a table only for a frame that
    already has a "platoon_matchup" column. *)
Theorem filtered_rates_need_matchup_column
    (pas : DataFrame) (wanted : string) (rates : list (string * Q)) :
  league_rates_from_data pas (Some wanted) = Ok rates ->
  has_col "platoon_matchup" pas = true.
Proof.
  intros H. apply Tally.league_rates_table in H as (pas1 & H1 & [Hp|Hp] & _);
    [discriminate|].
  destruct (Tally.labeled_first_has_outcome _ _ H1) as (_ & Hc & _).
  now rewrite Hc in Hp by discriminate.
Qed.

Lemma filtered_rates_need_matchup_column_witness :
  has_col "platoon_matchup" matchup_frame = true.
Proof.
  apply (filtered_rates_need_matchup_column matchup_frame "opposite"
           (rate_table [CStr "Walk"; CStr "Out"; CStr "Out"])).
  reflexivity.
Defined.

(** ** Loaded datasets *)

Module Loaded.
Import Frames.

Section WithPandas.
Variable pd : Pandas.

(** A coerced row differs from the row before in the coerced column only. *)
Lemma coerce_step_keeps (cast : num -> Z) (col : string) (p : DataFrame) (r r' : Row) :
  (if has_col col p
   then exists z, coerce_int_cell pd cast (row_get col r) = Ok z
                  /\ r' = dict_set col (CInt z) r
   else r' = r) ->
  forall c, c <> col -> row_get c r' = row_get c r.
Proof.
  intros H c Hne. destruct (has_col col p).
  - destruct H as (z & _ & ->). apply row_get_set_other. congruence.
  - now subst r'.
Qed.

(** Labelling and coercion, row by row: the label is the classifier's
    verdict on the row's event, and no column other than "outcome", "balls"
    and "strikes" is touched. *)
Lemma label_and_coerce_shape (pas ds : DataFrame) :
  label_and_coerce pd pas = Ok ds ->
  has_col "outcome" ds = true
  /\ Forall2 (fun fetched loaded =>
                (exists o, event_cell_to_outcome (row_get "events" fetched) = Ok o
                           /\ row_get "outcome" loaded = o)
                /\ forall c, c <> "outcome" -> c <> "balls" -> c <> "strikes" ->
                             row_get c loaded = row_get c fetched)
             (rows pas) (rows ds).
Proof.
  unfold label_and_coerce. intros H.
  destruct (map_events_to_outcomes pas) as [p1|] eqn:E1; cbn [bind foldM] in H; [|discriminate].
  destruct (coerce_count_col pd "balls" p1) as [p2|] eqn:E2;
    cbn [bind] in H; [|discriminate].
  destruct (coerce_count_col pd "strikes" p2) as [p3|] eqn:E3;
    cbn [bind] in H; [|discriminate].
  injection H as <-.
  assert (Ho : has_col "outcome" p1 = true).
  { unfold map_events_to_outcomes in E1.
    destruct (get_col "events" pas); cbn [bind] in E1; [|discriminate].
    destruct (mapM event_cell_to_outcome a); cbn [bind] in E1; [|discriminate].
    injection E1 as <-. apply has_col_set_same. }
  rewrite Loader.map_events_as_rewrite in E1.
  apply Loader.rewrite_col_inv in E1 as (_ & _ & R1).
  apply Loader.coerce_count_col_inv in E2 as (C2 & R2).
  apply Loader.coerce_count_col_inv in E3 as (C3 & R3).
  split.
  { unfold has_col in *. now rewrite C3, C2. }
  pose proof (Loader.Forall2_compose _ _ _ _ _
                (Loader.Forall2_compose _ _ _ _ _ R1 R2) R3) as R.
  eapply Forall2_impl; [|exact R].
  intros raw out (r2 & (r1 & (o & Hev & ->) & H2) & H3).
  pose proof (coerce_step_keeps _ _ _ _ _ H2) as K2.
  pose proof (coerce_step_keeps _ _ _ _ _ H3) as K3.
  split.
  - exists o. split; [exact Hev|].
    rewrite K3, K2 by discriminate. apply row_get_set_same.
  - intros c Ho' Hb Hs. rewrite K3, K2 by congruence.
    apply row_get_set_other. congruence.
Qed.

End WithPandas.

Lemma event_of_populated (v o : cell) :
  notna v = true -> event_cell_to_outcome v = Ok o ->
  exists ev, v = CStr ev /\ o = CStr (_event_to_outcome (Some ev)).
Proof.
  destruct v as [| | | |ev]; cbn [notna event_cell_to_outcome]; try discriminate.
  intros _ [= <-]. eauto.
Qed.

Section WithSource.
Variable statcast : string -> string -> option DataFrame.
Variable pd : Pandas.

(** A non-empty loaded dataset comes from a non-empty fetch. *)
Lemma load_inv (start_dt end_dt : string) (ds : DataFrame) :
  load_pa_dataset statcast pd start_dt end_dt = Ok ds ->
  df_empty ds = false ->
  exists pas,
    fetch_statcast_pas statcast start_dt end_dt = Ok pas
    /\ df_empty pas = false
    /\ label_and_coerce pd pas = Ok ds.
Proof.
  intros Hl He.
  destruct (fetch_statcast_pas statcast start_dt end_dt) as [pas|] eqn:Ef.
  2:{ unfold load_pa_dataset in Hl. rewrite Ef in Hl. discriminate. }
  rewrite (Loader.load_as_label_and_coerce _ _ _ _ _ Ef) in Hl.
  destruct (df_empty pas) eqn:Hp.
  - injection Hl as <-. congruence.
  - eauto.
Qed.

(** The rows and labels of a non-empty loaded dataset. *)
Lemma loaded_rows (start_dt end_dt : string) (ds : DataFrame) :
  load_pa_dataset statcast pd start_dt end_dt = Ok ds ->
  df_empty ds = false ->
  has_col "outcome" ds = true
  /\ Forall (fun r => exists ev, row_get "events" r = CStr ev
                                 /\ row_get "outcome" r = CStr (_event_to_outcome (Some ev)))
            (rows ds).
Proof.
  intros Hl He. destruct (load_inv _ _ _ Hl He) as (pas & Hf & Hp & Hlc).
  destruct (Loader.fetch_inv _ _ _ _ Hf Hp) as (_ & Hna).
  apply label_and_coerce_shape in Hlc as (Ho & R).
  split; [exact Ho|].
  eapply Loader.Forall2_Forall; [|exact Hna|exact R].
  intros raw out Hraw ((o & Hev & Hout) & Hkeep). cbn beta in Hraw.
  destruct (event_of_populated _ _ Hraw Hev) as (ev & Hv & ->).
  exists ev. rewrite Hkeep by discriminate. auto.
Qed.

Lemma loaded_is_labeled (start_dt end_dt : string) (ds : DataFrame) :
  load_pa_dataset statcast pd start_dt end_dt = Ok ds ->
  df_empty ds = false ->
  labeled ds.
Proof.
  intros Hl He. destruct (loaded_rows _ _ _ Hl He) as (Ho & Hr).
  split; [exact Ho|]. eapply Forall_impl; [|exact Hr].
  intros r (ev & _ & ->). apply Labels.classifier_label_valid.
Qed.

End WithSource.
End Loaded.

(** A loaded dataset that is not empty has one row for each fetched row with
    a populated event; in every row the event is a string and the
    "outcome" is what the classifier returns for it. *)
Theorem loaded_rows_are_classified_events
    (statcast : string -> string -> option DataFrame)
    (pd : Pandas) (start_dt end_dt : string)
    (raw ds : DataFrame) :
  statcast start_dt end_dt = Some raw ->
  load_pa_dataset statcast pd start_dt end_dt = Ok ds ->
  df_empty ds = false ->
  has_col "outcome" ds = true
  /\ List.length (rows ds)
     = List.length (filter (fun r => notna (row_get "events" r)) (rows raw))
  /\ Forall (fun r => exists ev, row_get "events" r = CStr ev
                                 /\ row_get "outcome" r = CStr (_event_to_outcome (Some ev)))
            (rows ds).
Proof.
  intros Hs Hl He.
  destruct (Loaded.loaded_rows _ _ _ _ _ Hl He) as (Ho & Hr).
  split; [exact Ho|]. split; [|exact Hr].
  destruct (Loaded.load_inv _ _ _ _ _ Hl He) as (pas & Hf & Hp & Hlc).
  apply Loaded.label_and_coerce_shape in Hlc as (_ & R).
  rewrite <- (Forall2_length R).
  unfold fetch_statcast_pas in Hf. rewrite Hs in Hf.
  destruct (df_empty raw); [injection Hf as <-; discriminate Hp|].
  destruct (get_col "events" raw) as [events|] eqn:Eg; cbn [bind] in Hf; [|discriminate].
  apply Frames.get_col_inv in Eg as [_ ->]. injection Hf as <-.
  cbn [select_rows rows]. now rewrite Frames.mask_filter_map2.
Qed.

Lemma loaded_rows_are_classified_events_witness :
  has_col "outcome" three_pitch_loaded = true
  /\ List.length (rows three_pitch_loaded)
     = List.length (filter (fun r => notna (row_get "events" r)) (rows three_pitch_source))
  /\ Forall (fun r => exists ev, row_get "events" r = CStr ev
                                 /\ row_get "outcome" r = CStr (_event_to_outcome (Some ev)))
            (rows three_pitch_loaded).
Proof.
  apply (loaded_rows_are_classified_events three_pitch_statcast plain_pandas
           "2024-04-01" "2024-04-02" three_pitch_source three_pitch_loaded);
    reflexivity.
Defined.

(** The overall rates of a loaded dataset that is not empty are a
    distribution: the aggregator returns a table, its keys are the eight
    categories, every frequency is in [0, 1], and they add up to 1. *)
Theorem loaded_rates_are_a_distribution
    (statcast : string -> string -> option DataFrame)
    (pd : Pandas) (start_dt end_dt : string) (ds : DataFrame) :
  load_pa_dataset statcast pd start_dt end_dt = Ok ds ->
  df_empty ds = false ->
  exists rates,
    league_rates_from_data ds None = Ok rates
    /\ map fst rates = OUTCOME_ORDER
    /\ Forall (fun kv => (0 <= snd kv <= 1)%Q) rates
    /\ (sum_rates rates == 1)%Q.
Proof.
  intros Hl He.
  destruct (Loaded.loaded_is_labeled _ _ _ _ _ Hl He) as (Ho & Hv).
  exists (rate_table (map (row_get "outcome") (rows ds))).
  split.
  { unfold league_rates_from_data. rewrite Ho. cbn [negb bind].
    now apply Tally.tally_loop. }
  split; [apply Tally.rate_table_keys|].
  split; [apply Tally.rate_table_bounds|].
  apply Tally.rate_table_sum_one.
  - unfold df_empty in He. destruct (rows ds); [discriminate He | discriminate].
  - now apply Forall_map.
Qed.

Lemma loaded_rates_are_a_distribution_witness :
  exists rates,
    league_rates_from_data three_pitch_loaded None = Ok rates
    /\ map fst rates = OUTCOME_ORDER
    /\ Forall (fun kv => (0 <= snd kv <= 1)%Q) rates
    /\ (sum_rates rates == 1)%Q.
Proof.
  apply (loaded_rates_are_a_distribution three_pitch_statcast plain_pandas
           "2024-04-01" "2024-04-02" three_pitch_loaded);
    reflexivity.
Defined.

(** When the source hands out nothing, or a frame with no row or no column,
    the loader returns the frame without columns, and the aggregator cannot
    read it: it raises KeyError for "events" instead of returning zeros. *)
Theorem nothing_fetched_is_not_aggregated
    (statcast : string -> string -> option DataFrame)
    (pd : Pandas) (start_dt end_dt : string)
    (platoon_filter : option string) :
  statcast start_dt end_dt = None
  \/ (exists raw, statcast start_dt end_dt = Some raw /\ df_empty raw = true) ->
  load_pa_dataset statcast pd start_dt end_dt = Ok empty_frame
  /\ league_rates_from_data empty_frame platoon_filter = Raise (KeyError "events").
Proof.
  intros Hs. split; [|reflexivity].
  unfold load_pa_dataset, fetch_statcast_pas.
  destruct Hs as [-> | (raw & -> & ->)]; reflexivity.
Qed.

Lemma nothing_fetched_is_not_aggregated_witness :
  load_pa_dataset silent_statcast plain_pandas "2024-04-01" "2024-04-02" = Ok empty_frame
  /\ league_rates_from_data empty_frame (Some "same") = Raise (KeyError "events").
Proof.
  apply (nothing_fetched_is_not_aggregated silent_statcast plain_pandas
           "2024-04-01" "2024-04-02" (Some "same")).
  left; reflexivity.
Defined.

(** ** The feature builder *)

Module Features.
Import Frames.

Lemma map2_map {A B C D : Type} (f : B -> C -> D) (g : A -> B) (h : A -> C) (l : list A) :
  map2 f (map g l) (map h l) = map (fun a => f (g a) (h a)) l.
Proof. induction l as [|a t IH]; simpl; [reflexivity | now rewrite IH]. Qed.

Lemma mapM_all_ok {A B : Type} (h : A -> result B) (d : B) (l : list A) :
  Forall (fun a => exists b, h a = Ok b) l ->
  mapM h l = Ok (map (fun a => match h a with Ok b => b | Raise _ => d end) l).
Proof.
  induction 1 as [|a t [b Hb] _ IH]; simpl; [reflexivity|].
  now rewrite Hb, IH.
Qed.

Lemma mapM_ok_all {A B : Type} (h : A -> result B) (l : list A) (l' : list B) :
  mapM h l = Ok l' -> Forall (fun a => exists b, h a = Ok b) l.
Proof.
  intros H. apply Loader.mapM_inv in H.
  induction H; constructor; eauto.
Qed.

Lemma has_col_set (c c' : string) (v : Series) (df : DataFrame) :
  has_col c (set_col c' v df) = (has_col c df || (c =? c')%string).
Proof.
  unfold set_col, has_col at 1; cbn [columns].
  destruct (has_col c' df) eqn:E.
  - fold (has_col c df). destruct (c =? c')%string eqn:Ec.
    + apply String.eqb_eq in Ec. subst. now rewrite E.
    + now rewrite orb_false_r.
  - unfold has_col, mem. rewrite existsb_app. cbn. now rewrite orb_false_r.
Qed.

(** A frame whose rows are [map F l], after [df[c] = map g l]. *)
Lemma set_col_mapped (c : string) (df : DataFrame) (l : list Row) (F : Row -> Row)
    (g : Row -> cell) :
  rows df = map F l ->
  rows (set_col c (map g l) df) = map (fun r => dict_set c (g r) (F r)) l.
Proof.
  intros H. cbn [set_col rows]. rewrite H.
  exact (map2_map (fun r v => dict_set c v r) F g l).
Qed.

End Features.

Module FeatureForm.
Import Frames Features.

Section WithPandas.
Variable pd : Pandas.

Lemma count_value_ok (cast : num -> Z) (v : cell) :
  reads_finite pd v ->
  coerce_int_cell pd cast v = Ok (count_value pd cast v).
Proof.
  intros H. unfold count_value.
  destruct (Loader.coerce_int_cell_ok pd cast v H) as [z Hz]. now rewrite Hz.
Qed.

(** The coercion of a count column [s] that reads finite. *)
Lemma coerce_int_mapped (l : list Row) (F : Row -> cell) (s : Series) :
  map F l = s ->
  Forall (fun r => reads_finite pd (F r)) l ->
  coerce_int pd (map F l)
  = Ok (map (fun r => count_value pd (int64_cast pd s) (F r)) l).
Proof.
  intros <- H. unfold coerce_int.
  rewrite (mapM_all_ok _ 0%Z).
  - now rewrite map_map.
  - apply Forall_map. eapply Forall_impl; [|exact H].
    intros r Hr. cbn beta. rewrite (count_value_ok _ _ Hr). eauto.
Qed.

(** [series.str] looks at the values of the column only. *)
Lemma str_accessor_as (s s' : Series) :
  s = s' -> str_accessor pd s = (_ <- str_accessor pd s' ;; Ok s).
Proof. intros <-. unfold str_accessor. now destruct (str_accepted pd s). Qed.

(** Reading a column of a frame whose rows are [map F l]. *)
Lemma get_col_mapped (c : string) (df : DataFrame) (l : list Row) (F : Row -> Row) :
  rows df = map F l -> has_col c df = true ->
  get_col c df = Ok (map (fun r => row_get c (F r)) l).
Proof. intros HR Hc. rewrite (get_col_ok _ _ Hc), HR. now rewrite map_map. Qed.

Ltac name_frame c df R C :=
  match goal with
  | |- context [set_col c (map ?g ?l) ?d] =>
      set (df := set_col c (map g l) d);
      assert (C : forall k, has_col k df = (has_col k d || (k =? c)%string))
        by (intro; apply has_col_set);
      assert (R : rows df = map (fun r => dict_set c (g r) _) l)
        by (apply set_col_mapped; first [eassumption | symmetry; apply map_id]);
      cbn beta in R; clearbody df
  end.

Ltac read_col c R :=
  rewrite (get_col_mapped c _ _ _ R)
    by (repeat match goal with C : forall k, has_col k _ = _ |- _ => rewrite C; clear C end;
        match goal with H : has_col c _ = true |- _ => rewrite H end; reflexivity);
  cbn [bind].

Ltac col_facts :=
  repeat match goal with
         | C : forall k, has_col k ?d = _ |- context [has_col _ ?d] => rewrite !C
         end;
  cbn [String.eqb Ascii.eqb Bool.eqb andb].

Ltac finish_with R :=
  rewrite (get_col_mapped "outcome" _ _ _ R)
    by (col_facts; match goal with H : has_col "outcome" _ = true |- _ => rewrite H end;
        reflexivity);
  cbn [bind]; unfold project; rewrite R;
  cbn [filter app]; col_facts;
  repeat match goal with H : has_col _ _ = _ |- _ => rewrite H end;
  rewrite ?orb_true_r; cbn [orb filter app];
  f_equal; f_equal;
  apply map_ext; intros r; now rewrite !row_get_set_other by discriminate.

(** [build_features] on a frame that has the five columns and counts that
    read finite: what is left to go wrong is the [.str] of the two
    handedness columns. *)
Lemma build_features_steps (pas : DataFrame) :
  has_col "balls" pas = true -> has_col "strikes" pas = true ->
  has_col "stand" pas = true -> has_col "p_throws" pas = true ->
  has_col "outcome" pas = true ->
  Forall (fun r => reads_finite pd (row_get "balls" r)
                   /\ reads_finite pd (row_get "strikes" r)) (rows pas) ->
  build_features pd pas
  = (_ <- str_accessor pd (column "stand" pas) ;;
     _ <- str_accessor pd (column "p_throws" pas) ;;
     Ok (features_of pd pas)).
Proof.
  intros Hb Hs Hst Hp Ho Hfin. unfold build_features, features_of.
  rewrite (get_col_ok _ _ Hb). cbn [bind].
  rewrite (coerce_int_mapped _ _ (column "balls" pas));
    [|reflexivity|eapply Forall_impl; [|exact Hfin]; intros r [H _]; exact H].
  cbn [bind]. rewrite map_map.
  name_frame "balls" df1 R1 C1.
  read_col "strikes" R1.
  rewrite (coerce_int_mapped _ _ (column "strikes" pas));
    [|apply map_ext; intros r; now rewrite row_get_set_other by discriminate
     |eapply Forall_impl; [|exact Hfin]; intros r [_ H];
      now rewrite row_get_set_other by discriminate].
  cbn [bind]. rewrite map2_map, !map_map.
  name_frame "strikes" df2 R2 C2.
  name_frame "count_id" df3 R3 C3.
  read_col "stand" R3.
  rewrite (str_accessor_as _ (column "stand" pas))
    by (apply map_ext; intros r; now rewrite !row_get_set_other by discriminate).
  destruct (str_accessor pd (column "stand" pas)) as [stand'|]; cbn [bind]; [|reflexivity].
  read_col "p_throws" R3.
  rewrite (str_accessor_as _ (column "p_throws" pas))
    by (apply map_ext; intros r; now rewrite !row_get_set_other by discriminate).
  destruct (str_accessor pd (column "p_throws" pas)) as [p_throws'|]; cbn [bind];
    [|reflexivity].
  rewrite map2_map, !map_map.
  name_frame "platoon_same" df4 R4 C4.
  assert (H4 : forall k, has_col k df4
                         = (has_col k pas || (k =? "balls") || (k =? "strikes")
                            || (k =? "count_id") || (k =? "platoon_same"))%string).
  { intro k. now rewrite C4, C3, C2, C1. }
  clear C1 C2 C3 C4 R1 R2 R3.
  cbn [foldM]. unfold add_optional_feature, feature_columns, coerce_num.
  rewrite (H4 "inning"). cbn [String.eqb Ascii.eqb Bool.eqb andb]. rewrite !orb_false_r.
  destruct (has_col "inning" pas) eqn:Hi.
  - rewrite (get_col_mapped "inning" df4 _ _ R4) by (rewrite H4, Hi; reflexivity).
    cbn [bind]. rewrite map_map.
    name_frame "inning" df5 R5 C5.
    rewrite (C5 "outs_when_up"), (H4 "outs_when_up").
    cbn [String.eqb Ascii.eqb Bool.eqb andb]. rewrite !orb_false_r.
    destruct (has_col "outs_when_up" pas) eqn:Hu.
    + rewrite (get_col_mapped "outs_when_up" df5 _ _ R5)
        by (rewrite C5, H4, Hu; reflexivity).
      cbn [bind]. rewrite map_map.
      name_frame "outs_when_up" df6 R6 C6.
      finish_with R6.
    + cbn [bind]. finish_with R5.
  - cbn [bind]. rewrite (H4 "outs_when_up").
    cbn [String.eqb Ascii.eqb Bool.eqb andb]. rewrite !orb_false_r.
    destruct (has_col "outs_when_up" pas) eqn:Hu.
    + rewrite (get_col_mapped "outs_when_up" df4 _ _ R4) by (rewrite H4, Hu; reflexivity).
      cbn [bind]. rewrite map_map.
      name_frame "outs_when_up" df6 R6 C6.
      finish_with R6.
    + cbn [bind]. finish_with R4.
Qed.

Lemma build_features_closed_form (pas : DataFrame) :
  featurable pd pas -> build_features pd pas = Ok (features_of pd pas).
Proof.
  intros (Hb & Hs & Hst & Hp & Ho & Hfin & Ast & Ap).
  rewrite build_features_steps by assumption.
  unfold str_accessor. now rewrite Ast, Ap.
Qed.

Lemma coerce_ok_finite (cast : num -> Z) (v : cell) (z : Z) :
  coerce_int_cell pd cast v = Ok z -> reads_finite pd v.
Proof.
  unfold coerce_int_cell, reads_finite. intros H b Hb. rewrite Hb in H. discriminate.
Qed.

Lemma coerce_int_finite (l : list Row) (F : Row -> cell) (ints : list Z) :
  coerce_int pd (map F l) = Ok ints ->
  Forall (fun r => reads_finite pd (F r)) l.
Proof.
  intros H. apply mapM_ok_all in H. rewrite Forall_forall in H.
  apply Forall_forall. intros r Hr.
  destruct (H (F r) (in_map F l r Hr)) as [z Hz]. eapply coerce_ok_finite; eauto.
Qed.

Lemma add_optional_feature_columns (c : string) (df df' : DataFrame) (fc fc' : list string) :
  add_optional_feature pd c (df, fc) = Ok (df', fc') ->
  forall k, has_col k df' = has_col k df.
Proof.
  unfold add_optional_feature. destruct (has_col c df) eqn:Hc.
  - rewrite (get_col_ok _ _ Hc). cbn [bind]. intros [= <- <-] k.
    rewrite has_col_set. destruct (k =? c)%string eqn:E.
    + apply String.eqb_eq in E. subst. now rewrite Hc.
    + apply orb_false_r.
  - now intros [= <- <-].
Qed.

(** What [build_features] needs in order to return. *)
Lemma build_features_needs (pas X : DataFrame) (y : Series) :
  build_features pd pas = Ok (X, y) -> featurable pd pas.
Proof.
  intros H0.
  enough (Hf : has_col "balls" pas = true /\ has_col "strikes" pas = true
               /\ has_col "stand" pas = true /\ has_col "p_throws" pas = true
               /\ has_col "outcome" pas = true
               /\ Forall (fun r => reads_finite pd (row_get "balls" r)
                                   /\ reads_finite pd (row_get "strikes" r)) (rows pas)).
  { destruct Hf as (Hb & Hs & Hst & Hp & Ho & Hfin).
    rewrite build_features_steps in H0 by assumption.
    unfold str_accessor in H0.
    destruct (str_accepted pd (column "stand" pas)) eqn:Ast;
      cbn [bind] in H0; [|discriminate].
    destruct (str_accepted pd (column "p_throws" pas)) eqn:Ap;
      cbn [bind] in H0; [|discriminate].
    unfold featurable. tauto. }
  pose proof H0 as H. clear H0. unfold build_features in H.
  destruct (get_col "balls" pas) as [a|] eqn:E; cbn [bind] in H; [|discriminate].
  apply get_col_inv in E as [Hb ->].
  destruct (coerce_int pd _) as [balls|] eqn:E0 in H; cbn [bind] in H; [|discriminate].
  pose proof (coerce_int_finite _ _ _ E0) as Fb.
  rewrite (coerce_int_mapped _ _ _ eq_refl Fb) in E0. injection E0 as <-.
  rewrite map_map in H.
  match type of H with
  | context [set_col "balls" (map ?g ?l) ?d] =>
      set (df1 := set_col "balls" (map g l) d) in H;
      assert (C1 : forall k, has_col k df1 = (has_col k d || (k =? "balls")%string))
        by (intro; apply has_col_set);
      assert (R1 : rows df1 = map (fun r => dict_set "balls" (g r) r) l)
        by (exact (set_col_mapped "balls" d l (fun r => r) g (eq_sym (map_id l))));
      clearbody df1
  end.
  destruct (get_col "strikes" df1) as [a|] eqn:E1; cbn [bind] in H; [|discriminate].
  apply get_col_inv in E1 as [Hs ->]. rewrite C1 in Hs.
  cbn [String.eqb Ascii.eqb Bool.eqb andb] in Hs. rewrite orb_false_r in Hs.
  rewrite R1, map_map in H.
  destruct (coerce_int pd _) as [strikes|] eqn:E2 in H; cbn [bind] in H; [|discriminate].
  pose proof (coerce_int_finite _ _ _ E2) as Fs.
  destruct (get_col "stand" _) as [stand|] eqn:E3 in H; cbn [bind] in H; [|discriminate].
  apply get_col_inv in E3 as [Hst _]. rewrite !has_col_set, C1 in Hst.
  cbn [String.eqb Ascii.eqb Bool.eqb andb] in Hst. rewrite !orb_false_r in Hst.
  destruct (str_accessor pd stand) as [stand'|]; cbn [bind] in H; [|discriminate].
  destruct (get_col "p_throws" _) as [p_throws|] eqn:E4 in H; cbn [bind] in H; [|discriminate].
  apply get_col_inv in E4 as [Hp _]. rewrite !has_col_set, C1 in Hp.
  cbn [String.eqb Ascii.eqb Bool.eqb andb] in Hp. rewrite !orb_false_r in Hp.
  destruct (str_accessor pd p_throws) as [p_throws'|]; cbn [bind] in H; [|discriminate].
  cbn [foldM] in H.
  match type of H with
  | context [add_optional_feature _ "inning" ?st] =>
      destruct (add_optional_feature pd "inning" st) as [[df5 fc5]|] eqn:E5;
      cbn [bind] in H; [|discriminate H]
  end.
  destruct (add_optional_feature pd "outs_when_up" (df5, fc5))
    as [[df6 fc6]|] eqn:E6; cbn [bind] in H; [|discriminate H].
  destruct (get_col "outcome" df6) as [labels|] eqn:E7; cbn [bind] in H; [|discriminate].
  apply get_col_inv in E7 as [Ho _].
  rewrite (add_optional_feature_columns _ _ _ _ _ E6) in Ho.
  rewrite (add_optional_feature_columns _ _ _ _ _ E5) in Ho.
  rewrite !has_col_set, C1 in Ho.
  cbn [String.eqb Ascii.eqb Bool.eqb andb] in Ho. rewrite !orb_false_r in Ho.
  repeat split; try assumption.
  apply Forall_forall. intros r Hr.
  rewrite Forall_forall in Fb, Fs. split; [now apply Fb|].
  specialize (Fs r Hr). cbn beta in Fs.
  now rewrite row_get_set_other in Fs by discriminate.
Qed.

(** The features of one row. *)
Lemma featured_row_values (cb cs : num -> Z) (inning outs : bool) (r : Row) :
  row_get "count_id" (featured_row pd cb cs inning outs r)
  = CInt (wrap64 (count_id (count_value pd cb (row_get "balls" r))
                           (count_value pd cs (row_get "strikes" r))))
  /\ row_get "platoon_same" (featured_row pd cb cs inning outs r)
     = CInt (same_upper pd (row_get "stand" r) (row_get "p_throws" r)).
Proof.
  unfold featured_row.
  destruct inning, outs;
    repeat first [ rewrite row_get_set_other by discriminate
                 | rewrite row_get_set_same ];
    split; reflexivity.
Qed.

End WithPandas.

Lemma wrap64_id (z : Z) : int64 z -> wrap64 z = z.
Proof.
  unfold int64, wrap64. intros H.
  rewrite Z.mod_small; lia.
Qed.

End FeatureForm.

(** [build_features] returns exactly for the frames that have the columns
    "balls", "strikes", "stand", "p_throws" and "outcome", in which no ball
    or strike count reads as an infinite number, and whose "stand" and
    "p_throws" columns are ones pandas grants [.str] on (a column that holds
    a string, or an object column of missing values only); the optional
    columns and every other content never make it fail. *)
Theorem build_features_returns_iff
    (pd : Pandas) (pas : DataFrame) :
  (exists X y, build_features pd pas = Ok (X, y))
  <-> featurable pd pas.
Proof.
  split.
  - intros (X & y & H). eapply FeatureForm.build_features_needs; eauto.
  - intros H. rewrite (FeatureForm.build_features_closed_form _ _ H).
    unfold features_of. eauto.
Qed.

(** What [build_features] returns: the feature columns are "count_id" and
    "platoon_same", then "inning" and "outs_when_up" where the frame has
    them, in this order; the labels are the "outcome" column as it came in;
    and row by row "count_id" is balls * 4 + strikes of the coerced counts,
    computed in int64 (it is balls * 4 + strikes itself as long as that is an
    int64), and "platoon_same" compares the two hands as pandas upper-cases
    them. *)
Theorem build_features_values
    (pd : Pandas) (pas X : DataFrame) (y : Series) :
  build_features pd pas = Ok (X, y) ->
  columns X = feature_columns pas
  /\ y = map (row_get "outcome") (rows pas)
  /\ Forall2 (fun r x =>
                exists b s,
                  coerce_int_cell pd (int64_cast pd (column "balls" pas))
                    (row_get "balls" r) = Ok b
                  /\ coerce_int_cell pd (int64_cast pd (column "strikes" pas))
                       (row_get "strikes" r) = Ok s
                  /\ row_get "count_id" x = CInt (wrap64 (count_id b s))
                  /\ (int64 (count_id b s) -> row_get "count_id" x = CInt (count_id b s))
                  /\ row_get "platoon_same" x
                     = CInt (same_upper pd (row_get "stand" r) (row_get "p_throws" r)))
             (rows pas) (rows X).
Proof.
  intros H. pose proof (FeatureForm.build_features_needs _ _ _ _ H) as Hf.
  rewrite (FeatureForm.build_features_closed_form _ _ Hf) in H.
  unfold features_of in H. injection H as <- <-. cbn [columns rows].
  split; [reflexivity|]. split; [reflexivity|].
  destruct Hf as (_ & _ & _ & _ & _ & Hfin & _).
  generalize (int64_cast pd (column "balls" pas)) as cb.
  generalize (int64_cast pd (column "strikes" pas)) as cs. intros cs cb.
  induction Hfin as [|r t [Hb Hs] _ IH]; cbn [map]; constructor; [|exact IH].
  exists (count_value pd cb (row_get "balls" r)),
         (count_value pd cs (row_get "strikes" r)).
  split; [now apply FeatureForm.count_value_ok|].
  split; [now apply FeatureForm.count_value_ok|].
  destruct (FeatureForm.featured_row_values pd cb cs (has_col "inning" pas)
              (has_col "outs_when_up" pas) r) as [Hc Hp].
  split; [exact Hc|]. split; [|exact Hp].
  intros Hr. rewrite Hc. now rewrite FeatureForm.wrap64_id.
Qed.

Lemma build_features_values_witness :
  columns mixed_features = feature_columns mixed_frame
  /\ mixed_labels = map (row_get "outcome") (rows mixed_frame)
  /\ Forall2 (fun r x =>
                exists b s,
                  coerce_int_cell plain_pandas
                    (int64_cast plain_pandas (column "balls" mixed_frame))
                    (row_get "balls" r) = Ok b
                  /\ coerce_int_cell plain_pandas
                       (int64_cast plain_pandas (column "strikes" mixed_frame))
                       (row_get "strikes" r) = Ok s
                  /\ row_get "count_id" x = CInt (wrap64 (count_id b s))
                  /\ (int64 (count_id b s) -> row_get "count_id" x = CInt (count_id b s))
                  /\ row_get "platoon_same" x
                     = CInt (same_upper plain_pandas (row_get "stand" r)
                               (row_get "p_throws" r)))
             (rows mixed_frame) (rows mixed_features).
Proof.
  apply (build_features_values plain_pandas mixed_frame mixed_features mixed_labels).
  reflexivity.
Defined.

(** ** The handedness flag *)

Module Hands.
Import PyStr.

Section WithSpecial.
Variable special : ascii -> list N.

Lemma upper_lower_char (c : ascii) :
  (if (code c <? 128)%N then upper_char special (lower_char c) else [])
  = (if (code c <? 128)%N then upper_char special c else []).
Proof. PyStrFacts.each_char c. Qed.

(** The upper-cased ASCII character tells the lower-cased one. *)
Lemma lower_of_upper_char (c : ascii) :
  (if (code c <? 128)%N
   then match upper_char special c with
        | [n] => lower_char (ascii_of_N n)
        | _ => zero
        end
   else zero)
  = (if (code c <? 128)%N then lower_char c else zero).
Proof. PyStrFacts.each_char c. Qed.

Lemma upper_char_single (c : ascii) :
  (if (code c <? 128)%N then List.length (upper_char special c) else 1%nat) = 1%nat.
Proof. PyStrFacts.each_char c. Qed.

Lemma upper_char_same (c d : ascii) :
  (code c <? 128)%N = true -> (code d <? 128)%N = true ->
  (upper_char special c = upper_char special d <-> lower_char c = lower_char d).
Proof.
  intros Hc Hd. split; intros H.
  - pose proof (lower_of_upper_char c) as Lc. pose proof (lower_of_upper_char d) as Ld.
    rewrite Hc in Lc. rewrite Hd in Ld. rewrite <- Lc, <- Ld. now rewrite H.
  - pose proof (upper_lower_char c) as Uc. pose proof (upper_lower_char d) as Ud.
    rewrite Hc in Uc. rewrite Hd in Ud. rewrite <- Uc, <- Ud.
    destruct (code (lower_char c) <? 128)%N; now rewrite H.
Qed.

Lemma single_app {A : Type} (x y : list A) (t u : list A) :
  List.length x = 1%nat -> List.length y = 1%nat ->
  (x ++ t = y ++ u <-> x = y /\ t = u).
Proof.
  destruct x as [|a [|? ?]]; try discriminate. destruct y as [|b [|? ?]]; try discriminate.
  intros _ _. cbn. split.
  - intros [= -> ->]. auto.
  - intros [[= ->] ->]. reflexivity.
Qed.

(** Two ASCII strings have the same upper case exactly when they have the
    same lower case. *)
Lemma upper_same (a b : string) :
  isascii a = true -> isascii b = true ->
  (upper special a = upper special b <-> lower a = lower b).
Proof.
  revert b. induction a as [|c t IH]; intros [|d u]; cbn [isascii upper lower].
  - tauto.
  - intros _ H. apply andb_prop in H as [Hd _].
    pose proof (upper_char_single d) as L. rewrite Hd in L.
    split; [|discriminate]. destruct (upper_char special d); discriminate.
  - intros H _. apply andb_prop in H as [Hc _].
    pose proof (upper_char_single c) as L. rewrite Hc in L.
    split; [|discriminate]. destruct (upper_char special c); discriminate.
  - intros Ha Hb. apply andb_prop in Ha as [Hc Ht]. apply andb_prop in Hb as [Hd Hu].
    pose proof (upper_char_single c) as Lc. rewrite Hc in Lc.
    pose proof (upper_char_single d) as Ld. rewrite Hd in Ld.
    rewrite (single_app _ _ _ _ Lc Ld), (upper_char_same c d Hc Hd), (IH u Ht Hu).
    split; [intros [-> ->]; reflexivity | intros [= -> ->]; auto].
Qed.

Lemma isascii_lower (a : string) : isascii a = true -> isascii (lower a) = true.
Proof.
  induction a as [|c t IH]; cbn [isascii lower]; [reflexivity|].
  intros H. apply andb_prop in H as [Hc Ht]. rewrite (IH Ht), andb_true_r.
  revert Hc. destruct c as [b0 b1 b2 b3 b4 b5 b6 b7].
  destruct b0, b1, b2, b3, b4, b5, b6, b7; intros H; first [exact H | reflexivity].
Qed.

End WithSpecial.
End Hands.

(** The handedness flag of [build_features] is 0 or 1 and does not depend on
    the order of the two hands; for two hands written in ASCII it is 1
    exactly when they are the same string up to letter case, so lower-casing
    a hand does not change it; it is 0 as soon as one hand is no string.
    This holds whatever pandas does beyond ASCII. *)
Theorem platoon_flag_ignores_case_and_order
    (pd : Pandas) (u v : cell) (a b : string) :
  PyStr.isascii a = true -> PyStr.isascii b = true ->
  (same_upper pd u v = 0%Z \/ same_upper pd u v = 1%Z)
  /\ same_upper pd u v = same_upper pd v u
  /\ (same_upper pd (CStr a) (CStr b) = 1%Z <-> PyStr.lower a = PyStr.lower b)
  /\ same_upper pd (CStr (PyStr.lower a)) (CStr b) = same_upper pd (CStr a) (CStr b)
  /\ (is_str u = false -> same_upper pd u v = 0%Z /\ same_upper pd v u = 0%Z).
Proof.
  intros Ha Hb.
  pose proof (Hands.upper_same (upper_special pd) a b Ha Hb) as Hab.
  pose proof (Hands.upper_same (upper_special pd) (PyStr.lower a) b
                (Hands.isascii_lower a Ha) Hb) as Hlab.
  rewrite PyStrFacts.lower_idem in Hlab.
  unfold same_upper, str_upper. repeat apply conj.
  - destruct u, v; auto. destruct (list_eq_dec N.eq_dec _ _); auto.
  - destruct u, v; auto.
    destruct (list_eq_dec N.eq_dec (PyStr.upper (upper_special pd) s)
                (PyStr.upper (upper_special pd) s0)),
             (list_eq_dec N.eq_dec (PyStr.upper (upper_special pd) s0)
                (PyStr.upper (upper_special pd) s)); congruence.
  - destruct (list_eq_dec N.eq_dec _ _) as [E|E]; [tauto|].
    intros H; discriminate H.
  - intros H. apply Hab in H. destruct (list_eq_dec N.eq_dec _ _); tauto.
  - destruct (list_eq_dec N.eq_dec _ _) as [E|E], (list_eq_dec N.eq_dec _ _) as [E'|E'];
      tauto.
  - intros Hu. destruct u; try discriminate Hu; split; destruct v; reflexivity.
Qed.

Lemma platoon_flag_ignores_case_and_order_witness :
  (same_upper plain_pandas CNa (CStr "L") = 0%Z
   \/ same_upper plain_pandas CNa (CStr "L") = 1%Z)
  /\ same_upper plain_pandas CNa (CStr "L") = same_upper plain_pandas (CStr "L") CNa
  /\ (same_upper plain_pandas (CStr "r") (CStr "R") = 1%Z
      <-> PyStr.lower "r" = PyStr.lower "R")
  /\ same_upper plain_pandas (CStr (PyStr.lower "r")) (CStr "R")
     = same_upper plain_pandas (CStr "r") (CStr "R")
  /\ (is_str CNa = false ->
      same_upper plain_pandas CNa (CStr "L") = 0%Z
      /\ same_upper plain_pandas (CStr "L") CNa = 0%Z).
Proof.
  apply (platoon_flag_ignores_case_and_order plain_pandas CNa (CStr "L") "r" "R");
    reflexivity.
Defined.

(** ** Training on a loaded dataset *)

Module LoadedTraining.
Import Frames.

Lemma mask_filter_all {A B : Type} (p : A -> bool) (l : list A) (l' : list B) :
  Forall (fun a => p a = true) l -> List.length l' = List.length l ->
  mask_filter (map p l) l' = l'.
Proof.
  intros H. revert l'. induction H as [|a t Ha _ IH]; intros [|b t'] Hl;
    cbn in *; try discriminate; try reflexivity.
  rewrite Ha. f_equal. apply IH. now injection Hl.
Qed.

Lemma valid_label_isin (v : cell) : valid_label v -> isin OUTCOME_ORDER v = true.
Proof.
  intros (s & -> & Hs). cbv [OUTCOME_ORDER In] in Hs.
  repeat (destruct Hs as [<- | Hs]; [reflexivity|]). contradiction.
Qed.

Section WithSource.
Variable statcast : string -> string -> option DataFrame.
Variable pd : Pandas.

(** A loaded dataset with the four context columns can be featured when
    pandas grants [.str] on its two handedness columns. *)
Lemma loaded_is_featurable (start_dt end_dt : string) (ds : DataFrame) :
  load_pa_dataset statcast pd start_dt end_dt = Ok ds ->
  df_empty ds = false ->
  has_col "balls" ds = true -> has_col "strikes" ds = true ->
  has_col "stand" ds = true -> has_col "p_throws" ds = true ->
  str_accepted pd (column "stand" ds) = true ->
  str_accepted pd (column "p_throws" ds) = true ->
  featurable pd ds.
Proof.
  intros Hl He Hb Hs Hst Hp Ast Ap.
  destruct (Loaded.loaded_is_labeled _ _ _ _ _ Hl He) as (Ho & _).
  repeat split; try assumption.
  destruct (Loaded.load_inv _ _ _ _ _ Hl He) as (pas & _ & _ & Hlc).
  apply Loader.label_and_coerce_inv in Hlc as (Hcols & R).
  rewrite Hcols in Hb, Hs by discriminate.
  eapply Loader.Forall2_Forall with (P := fun _ => True);
    [|apply Forall_forall; intros; exact I|exact R].
  intros raw out _ Hrel. cbn beta.
  destruct (Hrel "balls" (or_introl eq_refl) Hb) as (zb & -> & _).
  destruct (Hrel "strikes" (or_intror (or_introl eq_refl)) Hs) as (zs & -> & _).
  split; intros b; discriminate.
Qed.

End WithSource.
End LoadedTraining.

(** A loaded dataset that is not empty, has the columns "balls", "strikes",
    "stand" and "p_throws", and whose "stand" and "p_throws" columns are
    ones pandas grants [.str] on (each holds a string, or is an object column
    of missing values only) never makes [train_model] raise before the fit:
    the features are built, no row is dropped, and the fit receives one
    feature row and one label for every row of the dataset. *)
Theorem loaded_dataset_reaches_the_fit
    (statcast : string -> string -> option DataFrame)
    (pd : Pandas) (trained : Type)
    (fit_and_score : DataFrame -> Series -> Q -> Z -> result trained)
    (start_dt end_dt : string) (ds : DataFrame) (test_size : Q) (random_state : Z) :
  load_pa_dataset statcast pd start_dt end_dt = Ok ds ->
  df_empty ds = false ->
  has_col "balls" ds = true -> has_col "strikes" ds = true ->
  has_col "stand" ds = true -> has_col "p_throws" ds = true ->
  str_accepted pd (column "stand" ds) = true ->
  str_accepted pd (column "p_throws" ds) = true ->
  exists X y,
    build_features pd ds = Ok (X, y)
    /\ train_model pd trained fit_and_score ds test_size random_state
       = fit_and_score X y test_size random_state
    /\ List.length (rows X) = List.length (rows ds)
    /\ y = map (row_get "outcome") (rows ds)
    /\ Forall valid_label y.
Proof.
  intros Hl He Hb Hs Hst Hp Ast Ap.
  pose proof (LoadedTraining.loaded_is_featurable _ _ _ _ _ Hl He Hb Hs Hst Hp Ast Ap)
    as Hf.
  pose proof (FeatureForm.build_features_closed_form _ _ Hf) as Hbf.
  unfold features_of in Hbf.
  destruct (Loaded.loaded_is_labeled _ _ _ _ _ Hl He) as (_ & Hv).
  eexists _, _. split; [exact Hbf|].
  assert (Hvalid : Forall valid_label (map (row_get "outcome") (rows ds)))
    by now apply Forall_map.
  assert (Hall : Forall (fun v => isin OUTCOME_ORDER v = true)
                        (map (row_get "outcome") (rows ds))).
  { eapply Forall_impl; [|exact Hvalid]. apply LoadedTraining.valid_label_isin. }
  split; [|split; [cbn [rows]; apply length_map | split; [reflexivity | exact Hvalid]]].
  unfold train_model. rewrite Hbf. cbn [bind].
  unfold select_rows. cbn [rows columns].
  rewrite !LoadedTraining.mask_filter_all by (try exact Hall; now rewrite !length_map).
  unfold df_empty in *. cbn [rows columns].
  destruct (rows ds) as [|r t]; [discriminate He|]. reflexivity.
Qed.

Lemma loaded_dataset_reaches_the_fit_witness :
  exists X y,
    build_features plain_pandas three_pitch_loaded = Ok (X, y)
    /\ train_model plain_pandas _ echo_fit three_pitch_loaded (2 # 10) 42
       = echo_fit X y (2 # 10) 42
    /\ List.length (rows X) = List.length (rows three_pitch_loaded)
    /\ y = map (row_get "outcome") (rows three_pitch_loaded)
    /\ Forall valid_label y.
Proof.
  apply (loaded_dataset_reaches_the_fit three_pitch_statcast plain_pandas _ echo_fit
           "2024-04-01" "2024-04-02" three_pitch_loaded (2 # 10) 42);
    reflexivity.
Defined.

(** ** Queries *)

Module Queries.

Lemma mem_In (k : string) (l : list string) : In k l -> mem k l = true.
Proof.
  intros H. unfold mem. apply existsb_exists. exists k. split; [exact H|].
  apply String.eqb_refl.
Qed.

Lemma not_mem_neq (k c : string) (l : list string) :
  mem k l = false -> In c l -> (c =? k)%string = false.
Proof.
  intros Hm Hc. destruct (c =? k)%string eqn:E; [|reflexivity].
  apply String.eqb_eq in E. subst. now rewrite (mem_In _ _ Hc) in Hm.
Qed.

(** The names kept for the query frame are the known ones, in the order
    and with the repetitions of [fnames]. *)
Lemma query_columns (cid ps inning outs : Z) (fnames : list string) :
  filter (fun c => has_col c {| columns := map fst (query_row cid ps inning outs fnames);
                                rows := [query_row cid ps inning outs fnames] |})
         fnames
  = filter known_feature fnames.
Proof.
  apply filter_ext_in. intros c Hc. unfold has_col, known_feature, query_row. cbn [columns].
  destruct (mem "inning" fnames) eqn:Hi, (mem "outs_when_up" fnames) eqn:Hu;
    cbn [dict_set String.eqb Ascii.eqb Bool.eqb andb map fst mem existsb];
    rewrite ?(not_mem_neq _ _ _ Hi Hc), ?(not_mem_neq _ _ _ Hu Hc), ?orb_false_r;
    reflexivity.
Qed.

End Queries.

Section QueryFacts.
Variable classifier : Type.
Variable feature_names_in_ : classifier -> option (string * list string).
Variable feature_names : classifier -> option (list string).
Variable predict_proba : classifier -> DataFrame -> result (list Q).

Local Abbreviation probs_for := (outcome_probs_for_sim classifier feature_names_in_
                                   feature_names predict_proba).
Local Abbreviation ask := (get_outcome_probs classifier feature_names_in_
                             feature_names predict_proba).

Lemma query_frame
    (clf : classifier) (le : LabelEncoder) (cid ps inning outs : Z)
    (name : string) (names : list string) :
  probs_for clf le cid ps inning outs (Some (name :: names))
  = (probs <- predict_proba clf
                {| columns := filter known_feature (name :: names);
                   rows := [query_row cid ps inning outs (name :: names)] |} ;;
     Ok (dict_of (combine (classes_ le) probs))).
Proof.
  rewrite <- (Queries.query_columns cid ps inning outs (name :: names)).
  reflexivity.
Qed.

(** Given a list of feature names that is not empty, [outcome_probs_for_sim]
    asks the classifier about one row, under the known names of the list in
    the order of the list: names other than "count_id", "platoon_same",
    "inning" and "outs_when_up" are dropped, and the attributes of the
    classifier are not consulted. *)
Theorem query_frame_follows_feature_names
    (clf : classifier) (le : LabelEncoder) (cid ps inning outs : Z)
    (name : string) (names : list string) :
  probs_for clf le cid ps inning outs (Some (name :: names))
  = (probs <- predict_proba clf
                {| columns := filter known_feature (name :: names);
                   rows := [query_row cid ps inning outs (name :: names)] |} ;;
     Ok (dict_of (combine (classes_ le) probs))).
Proof. apply query_frame. Qed.

(** Queried with the feature columns that [build_features] returned, the
    classifier is asked about one row under exactly these columns, in the
    same order: the column order of training is the column order of the
    query. *)
Theorem trained_columns_are_queried_in_order
    (pd : Pandas) (pas X : DataFrame) (y : Series)
    (clf : classifier) (le : LabelEncoder) (cid ps inning outs : Z) :
  build_features pd pas = Ok (X, y) ->
  probs_for clf le cid ps inning outs (Some (columns X))
  = (probs <- predict_proba clf
                {| columns := columns X;
                   rows := [query_row cid ps inning outs (columns X)] |} ;;
     Ok (dict_of (combine (classes_ le) probs))).
Proof.
  intros H. pose proof (FeatureForm.build_features_needs _ _ _ _ H) as Hf.
  rewrite (FeatureForm.build_features_closed_form _ _ Hf) in H.
  injection H as <- _. cbn [columns]. unfold feature_columns.
  destruct (has_col "inning" pas), (has_col "outs_when_up" pas);
    cbn [app]; rewrite query_frame; reflexivity.
Qed.

(** When the rate file is missing, a query answered from the rates raises
    FileNotFoundError for the rate file, also when the model was asked for
    and the model file is missing as well. *)
Theorem missing_rate_file_is_reported
    (fs : Files classifier) (b s : Z) (h : bool) :
  pa_outcome_rates_json classifier fs = None ->
  ask fs b s h false = Raise (FileNotFoundError "pa_outcome_rates.json")
  /\ (pa_outcome_model_pkl classifier fs = None ->
      ask fs b s h true = Raise (FileNotFoundError "pa_outcome_rates.json")).
Proof.
  intros Hr. unfold get_outcome_probs, load_outcome_model, load_league_rates.
  rewrite Hr. split; [reflexivity|]. now intros ->.
Qed.

(** With the model file present, the query is the answer of
    [outcome_probs_for_sim] for count_id = balls * 4 + strikes, the hand
    flag, inning 5 and no outs: a result is returned as it is and any other
    exception is passed on, without reading the rate file; only a
    FileNotFoundError raised on the way is swallowed and answered from the
    rate file. *)
Theorem model_answer_is_passed_on
    (fs : Files classifier) (data : Bundle classifier) (b s : Z) (h : bool) :
  pa_outcome_model_pkl classifier fs = Some data ->
  let attempt :=
    probs_for (bundle_clf classifier data) (bundle_le classifier data)
              (count_id b s) (if h then 1%Z else 0%Z) 5 0
              (match bundle_meta classifier data with
               | Some m => meta_feature_names m
               | None => None
               end) in
  (forall probs, attempt = Ok probs -> ask fs b s h true = Ok probs)
  /\ (forall e, attempt = Raise e -> (forall path, e <> FileNotFoundError path) ->
                ask fs b s h true = Raise e)
  /\ (forall path, attempt = Raise (FileNotFoundError path) ->
                   ask fs b s h true = load_league_rates classifier fs).
Proof.
  intros Hm attempt. unfold get_outcome_probs, load_outcome_model.
  rewrite Hm. cbn [bind]. fold attempt.
  repeat apply conj.
  - intros probs ->. reflexivity.
  - intros e -> Hne. destruct e; try reflexivity. now destruct (Hne path).
  - intros path ->. reflexivity.
Qed.

End QueryFacts.

Lemma trained_columns_are_queried_in_order_witness :
  outcome_probs_for_sim unit (fun _ => None) (fun _ => None) probe_predict
    tt {| classes_ := ["Out"] |} 13 0 5 0 (Some (columns mixed_features))
  = (probs <- probe_predict tt
                {| columns := columns mixed_features;
                   rows := [query_row 13 0 5 0 (columns mixed_features)] |} ;;
     Ok (dict_of (combine (classes_ {| classes_ := ["Out"] |}) probs))).
Proof.
  apply (trained_columns_are_queried_in_order unit (fun _ => None) (fun _ => None)
           probe_predict plain_pandas mixed_frame mixed_features mixed_labels).
  reflexivity.
Defined.

Lemma missing_rate_file_is_reported_witness :
  get_outcome_probs unit (fun _ => None) (fun _ => None) probe_predict no_files 3 2 true false
  = Raise (FileNotFoundError "pa_outcome_rates.json")
  /\ (pa_outcome_model_pkl unit no_files = None ->
      get_outcome_probs unit (fun _ => None) (fun _ => None) probe_predict no_files 3 2 true true
      = Raise (FileNotFoundError "pa_outcome_rates.json")).
Proof.
  apply (missing_rate_file_is_reported unit (fun _ => None) (fun _ => None) probe_predict
           no_files 3 2 true).
  reflexivity.
Defined.

Lemma model_answer_is_passed_on_witness :
  let attempt :=
    outcome_probs_for_sim unit (fun _ => None) (fun _ => None) probe_predict
      tt {| classes_ := ["Out"] |} (count_id 3 2) 1 5 0
      (Some ["count_id"; "platoon_same"]) in
  (forall probs, attempt = Ok probs ->
                 get_outcome_probs unit (fun _ => None) (fun _ => None) probe_predict
                   files_with_model 3 2 true true = Ok probs)
  /\ (forall e, attempt = Raise e -> (forall path, e <> FileNotFoundError path) ->
                get_outcome_probs unit (fun _ => None) (fun _ => None) probe_predict
                  files_with_model 3 2 true true = Raise e)
  /\ (forall path, attempt = Raise (FileNotFoundError path) ->
                   get_outcome_probs unit (fun _ => None) (fun _ => None) probe_predict
                     files_with_model 3 2 true true
                   = load_league_rates unit files_with_model).
Proof.
  apply (model_answer_is_passed_on unit (fun _ => None) (fun _ => None) probe_predict
           files_with_model
           {| bundle_clf := tt;
              bundle_le := {| classes_ := ["Out"] |};
              bundle_meta := Some {| meta_feature_names := Some ["count_id"; "platoon_same"] |} |}
           3 2 true).
  reflexivity.
Defined.

(** ** When the loader returns *)

Module LoadReturns.
Import Frames.

Lemma event_ok_text (v o : cell) : event_cell_to_outcome v = Ok o -> is_text v.
Proof.
  destruct v; cbn; try discriminate; intros _; [now left | right; eauto].
Qed.

Section WithPandas.
Variable pd : Pandas.

Lemma coerce_count_col_ok_if (col : string) (p : DataFrame) :
  (has_col col p = true ->
   Forall (fun r => reads_finite pd (row_get col r)) (rows p)) ->
  exists p', coerce_count_col pd col p = Ok p'.
Proof.
  intros H. destruct (has_col col p) eqn:Hc.
  - apply Loader.coerce_count_col_ok. now apply H.
  - rewrite Loader.coerce_count_as_rewrite, Hc. eauto.
Qed.

Lemma label_and_coerce_ok_if (pas : DataFrame) :
  has_col "events" pas = true ->
  Forall (loadable_row pd pas) (rows pas) ->
  exists ds, label_and_coerce pd pas = Ok ds.
Proof.
  intros He Hall. unfold label_and_coerce.
  rewrite Loader.map_events_as_rewrite.
  destruct (Loader.rewrite_col_ok event_cell_to_outcome "events" "outcome" pas He)
    as [p1 E1].
  { eapply Forall_impl; [|exact Hall]. intros r [Ht _]. now apply Loader.event_cell_ok. }
  rewrite E1. cbn [bind foldM].
  apply Loader.rewrite_col_inv in E1 as (_ & C1 & R1).
  assert (Hcols : forall col, col <> "outcome" -> has_col col p1 = has_col col pas).
  { intros col Hne. unfold has_col. rewrite C1.
    destruct (has_col "outcome" pas); [reflexivity | now apply Loader.mem_snoc_other]. }
  destruct (coerce_count_col_ok_if "balls" p1) as [p2 E2].
  { rewrite Hcols by discriminate. intros Hb.
    eapply Loader.Forall2_Forall; [|exact Hall|exact R1].
    intros raw r1 [_ Hraw] (o & _ & ->).
    rewrite row_get_set_other by discriminate. apply Hraw; [now left | exact Hb]. }
  rewrite E2. cbn [bind].
  apply Loader.coerce_count_col_inv in E2 as (C2 & R2).
  destruct (coerce_count_col_ok_if "strikes" p2) as [p3 E3].
  { unfold has_col at 1. rewrite C2. fold (has_col "strikes" p1).
    rewrite Hcols by discriminate. intros Hs.
    pose proof (Loader.Forall2_compose _ _ _ _ _ R1 R2) as R.
    eapply Loader.Forall2_Forall; [|exact Hall|exact R].
    intros raw r2 [_ Hraw] (r1 & (o & _ & ->) & H2).
    rewrite (Loaded.coerce_step_keeps _ _ _ _ _ _ H2) by discriminate.
    rewrite row_get_set_other by discriminate.
    apply Hraw; [right; now left | exact Hs]. }
  rewrite E3. cbn [bind]. eauto.
Qed.

Lemma label_and_coerce_needs (pas ds : DataFrame) :
  label_and_coerce pd pas = Ok ds ->
  Forall (loadable_row pd pas) (rows pas).
Proof.
  intros H.
  pose proof (Loader.label_and_coerce_inv _ _ _ H) as (_ & Rc).
  pose proof (Loaded.label_and_coerce_shape _ _ _ H) as (_ & Rs).
  clear H. revert Rs. induction Rc as [|raw out t t' Hc _ IH]; intros Rs; [constructor|].
  inversion Rs as [|? ? ? ? [(o & Ho & _) _] Rs']; subst.
  constructor; [|now apply IH].
  split; [eapply event_ok_text; eauto|].
  intros col Hin Hhas. destruct (Hc col Hin Hhas) as (z & _ & Hz & _).
  eapply FeatureForm.coerce_ok_finite; eauto.
Qed.

End WithPandas.
End LoadReturns.

(** Once the fetch has brought a frame that is not empty, the loader
    returns a dataset exactly when every event is a string and every count
    in a ball or strike column of the frame reads as a finite number or as
    no number at all; an event that is a number, or a count that reads
    infinite, makes it raise. *)
Theorem load_returns_iff
    (statcast : string -> string -> option DataFrame)
    (pd : Pandas) (start_dt end_dt : string) (pas : DataFrame) :
  fetch_statcast_pas statcast start_dt end_dt = Ok pas ->
  df_empty pas = false ->
  ((exists ds, load_pa_dataset statcast pd start_dt end_dt = Ok ds)
   <-> Forall (loadable_row pd pas) (rows pas)).
Proof.
  intros Hf He. rewrite (Loader.load_as_label_and_coerce _ _ _ _ _ Hf), He.
  split.
  - intros [ds H]. eapply LoadReturns.label_and_coerce_needs; eauto.
  - intros H. apply LoadReturns.label_and_coerce_ok_if; [|exact H].
    now destruct (Loader.fetch_inv _ _ _ _ Hf He).
Qed.

Lemma load_returns_iff_witness :
  (exists ds, load_pa_dataset three_pitch_statcast plain_pandas
                "2024-04-01" "2024-04-02" = Ok ds)
  <-> Forall (loadable_row plain_pandas
                (select_rows [false; true; true] three_pitch_source))
             (rows (select_rows [false; true; true] three_pitch_source)).
Proof.
  apply (load_returns_iff three_pitch_statcast plain_pandas "2024-04-01" "2024-04-02"
           (select_rows [false; true; true] three_pitch_source));
    reflexivity.
Defined.
